(** * precision-health: food lookup and dish risk assessment

    A shallow embedding of the two rule-based classifiers of the
    application, [handleLookup] (src/components/FoodLookup.tsx) and
    [calculateDishRisk] / [assessDishRisks] / [filteredDishes]
    (src/components/RestaurantBrowser.tsx), together with the part of the
    view that renders the lookup label.

    The hosted database is not part of the repository: it is an interface
    ([Supabase]) whose every call either returns or throws, and whose answers
    may depend on a state of its own.  The handlers are written in a small
    state-and-exception monad that threads the remote state, the list of
    remote calls issued so far, the console and the React state of the
    component. *)

From Stdlib Require Import ZArith String List Ascii Bool Lia.
From stdpp Require Import base option list strings gmap.

Local Open Scope Z_scope.
Local Open Scope string_scope.
Local Open Scope list_scope.

(** ** Strings as JavaScript uses them *)

(** [s.trim()] removes ECMAScript white space and line terminators from both
    ends.  Strings are byte strings holding UTF-8, so a white-space character
    takes one to three bytes; [ws_len] is the length of the white-space
    character at the head of the byte list, 0 when there is none. *)
Definition ws_len (bs : list N) : nat :=
  match bs with
  | b1 :: r1 =>
      if ((9 <=? b1) && (b1 <=? 13) || (b1 =? 32))%N then 1%nat
      else match r1 with
      | b2 :: r2 =>
          if ((b1 =? 194) && (b2 =? 160))%N then 2%nat
          else match r2 with
          | b3 :: _ =>
              if ((b1 =? 225) && (b2 =? 154) && (b3 =? 128)
                  || (b1 =? 226) && (b2 =? 128)
                     && ((128 <=? b3) && (b3 <=? 138) || (b3 =? 168)
                         || (b3 =? 169) || (b3 =? 175))
                  || (b1 =? 226) && (b2 =? 129) && (b3 =? 159)
                  || (b1 =? 227) && (b2 =? 128) && (b3 =? 128)
                  || (b1 =? 239) && (b2 =? 187) && (b3 =? 191))%N
              then 3%nat else 0%nat
          | [] => 0%nat
          end
      | [] => 0%nat
      end
  | [] => 0%nat
  end.

(** The same for the white-space character at the end, on the reversed
    byte list: [b1] is the last byte, [b2] the one before it, [b3] the one
    before that, so a three-byte character reads [b3 b2 b1]. *)
Definition ws_len_rev (bs : list N) : nat :=
  match bs with
  | b1 :: r1 =>
      if ((9 <=? b1) && (b1 <=? 13) || (b1 =? 32))%N then 1%nat
      else match r1 with
      | b2 :: r2 =>
          if ((b2 =? 194) && (b1 =? 160))%N then 2%nat
          else match r2 with
          | b3 :: _ =>
              if ((b3 =? 225) && (b2 =? 154) && (b1 =? 128)
                  || (b3 =? 226) && (b2 =? 128)
                     && ((128 <=? b1) && (b1 <=? 138) || (b1 =? 168)
                         || (b1 =? 169) || (b1 =? 175))
                  || (b3 =? 226) && (b2 =? 129) && (b1 =? 159)
                  || (b3 =? 227) && (b2 =? 128) && (b1 =? 128)
                  || (b3 =? 239) && (b2 =? 187) && (b1 =? 191))%N
              then 3%nat else 0%nat
          | [] => 0%nat
          end
      | [] => 0%nat
      end
  | [] => 0%nat
  end.

Fixpoint strip (len : list N -> nat) (fuel : nat) (bs : list N) : list N :=
  match fuel with
  | O => bs
  | S fuel' =>
      match len bs with
      | O => bs
      | n => strip len fuel' (drop n bs)
      end
  end.

Definition bytes_of (s : string) : list N :=
  map N_of_ascii (list_ascii_of_string s).

Definition string_of_bytes (bs : list N) : string :=
  string_of_list_ascii (map ascii_of_N bs).

Definition trim (s : string) : string :=
  let bs := bytes_of s in
  let bs := strip ws_len (length bs) bs in
  let bs := rev (strip ws_len_rev (length bs) (rev bs)) in
  string_of_bytes bs.

(** JavaScript truthiness of a string: the empty string is falsy. *)
Definition truthy (s : string) : bool :=
  match s with EmptyString => false | _ => true end.

(** [a || b] on strings that may be null or undefined. *)
Definition or_else (a : option string) (b : string) : string :=
  match a with
  | Some s => if truthy s then s else b
  | None => b
  end.

(** A value that may be null, as a template literal prints it. *)
Definition interpolate (a : option string) : string :=
  match a with Some s => s | None => "null" end.

(** [xs.join(', ')]. *)
Definition join (sep : string) (xs : list string) : string :=
  String.concat sep xs.

(** ** Rows of the remote tables *)

(** An entry of the [toxicity_warnings] JSON array of an ingredient, as the
    migrations seed it: [{"species": [...], "compound": ..., "effect": ...}].
    Both fields the code reads may be missing. *)
Record ToxicityWarning := {
  species : option (list string);
  effect : option string;
}.

(** A row of [ingredients], with the columns the code reads.  The two JSON
    columns may be null and are otherwise taken in the shape the migrations
    give them: [toxicity_warnings] an array of warnings, [species_safe] an
    object.  The object is read as [species_safe[speciesType]] and compared
    with [=== false], so only its boolean entries matter. *)
Record IngredientRow := {
  ingredient_id : string;
  ingredient_name : string;
  species_safe : option (gmap string bool);
  toxicity_warnings : option (list ToxicityWarning);
}.

Record ProfileRow := { species_type : string }.

Record User := { user_id : string }.

(** A row of [ingredient_contraindications]; [rationale] is a nullable
    column. *)
Record ContraindicationRow := {
  condition_name : string;
  contraindication_type : string;
  contra_rationale : option string;
}.

(** ** FoodLookup.tsx: types *)

(** ['safe' | 'caution' | 'avoid'] *)
Inductive SafetyClassification := safe | caution | avoid.

Definition safety_label (c : SafetyClassification) : string :=
  match c with safe => "safe" | caution => "caution" | avoid => "avoid" end.

Record LookupResult := {
  food_name : string;
  safety_classification : SafetyClassification;
  rationale : string;
  ingredients_identified : list string;
}.

(** ** RestaurantBrowser.tsx: types *)

(** Of a dish the code below reads [id] and [ingredients]. *)
Record Dish := {
  dish_id : string;
  dish_name : string;
  ingredients : list string;
}.

(** ['safe' | 'beneficial' | 'neutral' | 'caution' | 'avoid'] *)
Inductive RiskClassification :=
  risk_safe | risk_beneficial | risk_neutral | risk_caution | risk_avoid.

Definition risk_label (c : RiskClassification) : string :=
  match c with
  | risk_safe => "safe"
  | risk_beneficial => "beneficial"
  | risk_neutral => "neutral"
  | risk_caution => "caution"
  | risk_avoid => "avoid"
  end.

(** An object pushed on [contraindications]; [reason] repeats a nullable
    column in one of the three pushes. *)
Record ContraindicationNote := {
  note_ingredient : string;
  note_reason : option string;
  note_severity : string;
}.

Record DishRiskAssessment := {
  assessment_dish_id : string;
  risk_classification : RiskClassification;
  risk_score : Z;
  risk_rationale : string;
  contraindications : list ContraindicationNote;
  recommended_substitutions : list string;
}.

(** ['all' | 'safe' | 'beneficial'] *)
Inductive RiskFilter := filter_all | filter_safe | filter_beneficial.

(** ** The remote interface *)

(** A thrown value. *)
Definition exn := string.

(** How an awaited call ends. *)
Inductive completion (A : Type) :=
| Returned (a : A)
| Thrown (e : exn).
Arguments Returned {A} a.
Arguments Thrown {A} e.

(** The calls the two components make, each on a remote state [RS].  A call
    answers the fields of the response that the caller reads: [data] alone
    where the caller destructures only [data], so that [None] is [data: null],
    whether the client found no row or reports an error in the [error] field
    that the caller drops.  A rejected promise is [Thrown]. *)
Class Supabase (RS : Type) := {
  (** [from('ingredients').select(..).ilike('name', pattern)], optionally
      [.limit(n)], then [.maybeSingle()] *)
  ingredients_ilike :
    string -> option nat -> RS -> completion (option IngredientRow) * RS;
  (** [auth.getUser()] *)
  auth_getUser : RS -> completion (option User) * RS;
  (** [from('profiles').select(..).eq('id', id).maybeSingle()] *)
  profiles_by_id : string -> RS -> completion (option ProfileRow) * RS;
  (** [from('ingredient_contraindications').select('*')
        .eq('ingredient_id', i).eq('species_type', s)] *)
  contraindications_for :
    string -> string -> RS -> completion (option (list ContraindicationRow)) * RS;
  (** the same query ended by [.maybeSingle()] *)
  contraindication_for :
    string -> string -> RS -> completion (option ContraindicationRow) * RS;
  (** [from('food_lookup_history').insert(row)]; the answer is not read *)
  lookup_history_insert : string -> LookupResult -> RS -> completion unit * RS;
  (** [from('food_lookup_history').select('*').order(..).limit(5)] *)
  lookup_history_recent : RS -> completion (option (list LookupResult)) * RS;
  (** [from('dish_risk_assessments').upsert(row)]; the answer is its
      [error] field.  The row also carries [assessed_at], the client clock,
      which the remote state stands for. *)
  dish_risk_upsert :
    string -> DishRiskAssessment -> RS -> completion (option exn) * RS;
  (** [from('dishes').select('*').eq('restaurant_id', r).eq('available', true)],
      answering [data] and [error] *)
  dishes_of_restaurant :
    string -> RS -> completion (option (list Dish) * option exn) * RS;
}.

(** A remote call with its outcome, as recorded in order of issue. *)
Inductive Event :=
| EvIngredient (pattern : string) (limit : option nat)
    (r : completion (option IngredientRow))
| EvGetUser (r : completion (option User))
| EvProfile (id : string) (r : completion (option ProfileRow))
| EvContraindications (ingredient species : string)
    (r : completion (option (list ContraindicationRow)))
| EvContraindication (ingredient species : string)
    (r : completion (option ContraindicationRow))
| EvInsertLookup (profile : string) (row : LookupResult) (r : completion unit)
| EvRecentLookups (r : completion (option (list LookupResult)))
| EvUpsertAssessment (profile : string) (a : DishRiskAssessment)
    (r : completion (option exn))
| EvDishes (restaurant : string)
    (r : completion (option (list Dish) * option exn)).

(** What an awaited call threw, if it threw. *)
Definition thrown {A} (r : completion A) : option exn :=
  match r with Thrown e => Some e | Returned _ => None end.

Definition failure (e : Event) : option exn :=
  match e with
  | EvIngredient _ _ r => thrown r
  | EvGetUser r => thrown r
  | EvProfile _ r => thrown r
  | EvContraindications _ _ r => thrown r
  | EvContraindication _ _ r => thrown r
  | EvInsertLookup _ _ r => thrown r
  | EvRecentLookups r => thrown r
  | EvUpsertAssessment _ _ r => thrown r
  | EvDishes _ r => thrown r
  end.

(** The errors thrown in a sequence of calls. *)
Definition failures (tr : list Event) : list exn := omap failure tr.

(** ** The monad of the handlers *)

Section Monad.
Context {RS : Type} {U : Type}.

(** What a handler runs in: the remote, the calls issued so far (oldest
    first), the lines written with [console.error], and the component's
    React state. *)
Record World := mkWorld {
  remote : RS;
  events : list Event;
  console : list (string * exn);
  ui : U;
}.

Definition M (A : Type) : Type := World -> completion A * World.

Definition ret {A} (a : A) : M A := fun w => (Returned a, w).

Definition bind {A B} (m : M A) (k : A -> M B) : M B :=
  fun w =>
    match m w with
    | (Returned a, w') => k a w'
    | (Thrown e, w') => (Thrown e, w')
    end.

Definition throw {A} (e : exn) : M A := fun w => (Thrown e, w).

(** [try { p } catch (error) { h error }] *)
Definition try_catch {A} (p : M A) (h : exn -> M A) : M A :=
  fun w =>
    match p w with
    | (Returned a, w') => (Returned a, w')
    | (Thrown e, w') => h e w'
    end.

(** [try { p } finally { f }] *)
Definition try_finally {A} (p : M A) (f : M unit) : M A :=
  fun w =>
    let '(r, w') := p w in
    match f w' with
    | (Returned _, w'') => (r, w'')
    | (Thrown e, w'') => (Thrown e, w'')
    end.

(** [await] of one remote call: the remote moves, the call is recorded. *)
Definition await {A} (call : RS -> completion A * RS)
    (ev : completion A -> Event) : M A :=
  fun w =>
    let '(r, s) := call (remote w) in
    (r, {| remote := s; events := events w ++ [ev r];
           console := console w; ui := ui w |}).

(** [console.error(msg, error)] *)
Definition console_error (msg : string) (e : exn) : M unit :=
  fun w =>
    (Returned tt, {| remote := remote w; events := events w;
                     console := console w ++ [(msg, e)]; ui := ui w |}).

(** A React state setter. *)
Definition set_state (f : U -> U) : M unit :=
  fun w =>
    (Returned tt, {| remote := remote w; events := events w;
                     console := console w; ui := f (ui w) |}).

(** The world a handler starts in. *)
Definition start (s : RS) (u : U) : World :=
  {| remote := s; events := []; console := []; ui := u |}.
End Monad.

Arguments World : clear implicits.
Arguments M : clear implicits.

Declare Scope handler_scope.
Delimit Scope handler_scope with handler.
Notation "'let!' x ':=' m 'in' k" := (bind m (fun x => k))
  (at level 10, x name, m at level 100, k at level 200) : handler_scope.
Notation "'let!' ' p ':=' m 'in' k" := (bind m (fun x => let 'p := x in k))
  (at level 10, p pattern, m at level 100, k at level 200) : handler_scope.

Local Open Scope handler_scope.

(** ** The rule steps shared by both components *)

(** [profile?.species_type || 'human'] *)
Definition speciesTypeOf (profile : option ProfileRow) : string :=
  or_else (option_map species_type profile) "human".

(** [(warning: any) => warning.species?.includes(speciesType)] *)
Definition lists_species (speciesType : string) (warning : ToxicityWarning)
    : bool :=
  match species warning with
  | Some names => bool_decide (speciesType ∈ names)
  | None => false
  end.

(** [x.toxicity_warnings && x.toxicity_warnings.length > 0] guarding
    [x.toxicity_warnings.find(..)]: the first warning that lists the
    species, if any. *)
Definition toxicForSpecies (warnings : option (list ToxicityWarning))
    (speciesType : string) : option ToxicityWarning :=
  match warnings with
  | Some ws =>
      if (0 <? length ws)%nat then List.find (lists_species speciesType) ws
      else None
  | None => None
  end.

(** [x.species_safe && x.species_safe[speciesType] === false] *)
Definition marked_unsafe (ingredient : IngredientRow) (speciesType : string)
    : bool :=
  match species_safe ingredient with
  | Some flags =>
      match flags !! speciesType with
      | Some false => true
      | _ => false
      end
  | None => false
  end.

(** ** FoodLookup.tsx *)

(** The React state of the component.  [searchQuery] is read from the render
    that created the handler, so the handler takes it as an argument. *)
Record FoodLookupState := {
  loading : bool;
  result : option LookupResult;
  recentLookups : list LookupResult;
}.

Definition setLoading (b : bool) (st : FoodLookupState) : FoodLookupState :=
  {| loading := b; result := result st; recentLookups := recentLookups st |}.

Definition setResult (r : option LookupResult) (st : FoodLookupState)
    : FoodLookupState :=
  {| loading := loading st; result := r; recentLookups := recentLookups st |}.

Definition setRecentLookups (l : list LookupResult) (st : FoodLookupState)
    : FoodLookupState :=
  {| loading := loading st; result := result st; recentLookups := l |}.

(** The two locals [classification] and [rationale] of [handleLookup]. *)
Definition Verdict : Type := SafetyClassification * string.

(** FoodLookup.tsx lines 50-59 *)
Definition lookup_toxicity (ingredientData : IngredientRow)
    (speciesType : string) (v : Verdict) : Verdict :=
  match toxicForSpecies (toxicity_warnings ingredientData) speciesType with
  | Some toxic =>
      (avoid,
       "DANGER: " +:+ ingredient_name ingredientData +:+ " is toxic to "
         +:+ speciesType +:+ "s. "
         +:+ or_else (effect toxic) "Can cause serious health issues.")
  | None => v
  end.

(** FoodLookup.tsx lines 61-67 *)
Definition lookup_species_flag (ingredientData : IngredientRow)
    (speciesType : string) (v : Verdict) : Verdict :=
  match fst v with
  | safe =>
      if marked_unsafe ingredientData speciesType
      then (avoid,
            ingredient_name ingredientData +:+ " is not safe for "
              +:+ speciesType +:+ " consumption.")
      else v
  | _ => v
  end.

Definition type_is (t : string) (c : ContraindicationRow) : bool :=
  String.eqb (contraindication_type c) t.

(** FoodLookup.tsx lines 75-86 *)
Definition lookup_contraindications (ingredientData : IngredientRow)
    (rows : option (list ContraindicationRow)) (v : Verdict) : Verdict :=
  match rows with
  | Some rows =>
      if (0 <? length rows)%nat then
        let avoidConditions := List.filter (type_is "avoid") rows in
        let cautionConditions :=
          List.filter (fun c => type_is "caution" c || type_is "limit" c) rows in
        if (0 <? length avoidConditions)%nat then
          (caution,
           "Use caution: " +:+ ingredient_name ingredientData
             +:+ " should be avoided if you have "
             +:+ join ", " (map condition_name avoidConditions) +:+ ".")
        else if (0 <? length cautionConditions)%nat then
          (caution,
           "Monitor intake: " +:+ ingredient_name ingredientData
             +:+ " should be limited if you have "
             +:+ join ", " (map condition_name cautionConditions) +:+ ".")
        else v
      else v
  | None => v
  end.

Definition not_in_database : string :=
  "This food is not in our database yet. Please consult with a healthcare professional if you have specific dietary concerns.".

Section FoodLookup.
Context {RS : Type} `{Supabase RS}.

Local Abbreviation Handler := (M RS FoodLookupState).

(** FoodLookup.tsx lines 121-138 *)
Definition loadRecentLookups : Handler unit :=
  try_catch
    (let! user := await auth_getUser EvGetUser in
     match user with
     | None => ret tt
     | Some _ =>
         let! data := await lookup_history_recent EvRecentLookups in
         match data with
         | Some data => set_state (setRecentLookups data)
         | None => ret tt
         end
     end)
    (fun error => console_error "Error loading recent lookups:" error).

(** The [try] block of [handleLookup], lines 26-113.  It answers whether
    [loadRecentLookups()] was called at line 112. *)
Definition lookup_try (searchQuery : string) : Handler bool :=
  let! ingredientData :=
    await (ingredients_ilike ("%" +:+ searchQuery +:+ "%") (Some 1%nat))
          (EvIngredient ("%" +:+ searchQuery +:+ "%") (Some 1%nat)) in
  let v : Verdict :=
    (safe, "This food appears to be generally safe for consumption.") in
  let! '(v, ingredients) :=
    match ingredientData with
    | Some ingredientData =>
        let ingredients := [ingredient_name ingredientData] in
        let! user := await auth_getUser EvGetUser in
        match user with
        | Some user =>
            let! profile :=
              await (profiles_by_id (user_id user)) (EvProfile (user_id user)) in
            let speciesType := speciesTypeOf profile in
            let v := lookup_toxicity ingredientData speciesType v in
            let v := lookup_species_flag ingredientData speciesType v in
            let! contraindications :=
              await (contraindications_for (ingredient_id ingredientData)
                       speciesType)
                    (EvContraindications (ingredient_id ingredientData)
                       speciesType) in
            let v :=
              lookup_contraindications ingredientData contraindications v in
            ret (v, ingredients)
        | None => ret (v, ingredients)
        end
    | None => ret ((caution, not_in_database), [])
    end in
  let lookupResult :=
    {| food_name := searchQuery;
       safety_classification := fst v;
       rationale := snd v;
       ingredients_identified := ingredients |} in
  let! _ := set_state (setResult (Some lookupResult)) in
  let! user := await auth_getUser EvGetUser in
  match user with
  | Some user =>
      let! _ :=
        await (lookup_history_insert (user_id user) lookupResult)
              (EvInsertLookup (user_id user) lookupResult) in
      ret true
  | None => ret false
  end.

(** FoodLookup.tsx lines 18-119, without [e.preventDefault()].  The call
    [loadRecentLookups()] at line 112 is not awaited: nothing of the
    handler waits for it, and its body runs once the handler is done.  The
    handler answers whether it made that call. *)
Definition handleLookup (searchQuery : string) : Handler bool :=
  if negb (truthy (trim searchQuery)) then ret false
  else
    let! _ := set_state (setLoading true) in
    let! _ := set_state (setResult None) in
    try_finally
      (try_catch (lookup_try searchQuery)
         (fun error =>
            let! _ := console_error "Error looking up food:" error in
            ret false))
      (set_state (setLoading false)).

(** A submission of the form as the event loop runs it: the handler, then
    the body of the [loadRecentLookups()] it left behind. *)
Definition onSubmit (searchQuery : string) : Handler unit :=
  let! started := handleLookup searchQuery in
  if started then loadRecentLookups else ret tt.
End FoodLookup.

(** The heading of the result card, lines 170-191: three children of the
    [<h3>], each a string or [false], which React renders as nothing.  No
    card is rendered while [result] is null. *)
Definition heading (result : LookupResult) : string :=
  (match safety_classification result with safe => "SAFE" | _ => "" end)
  +:+ (match safety_classification result with
       | caution => "USE CAUTION" | _ => "" end)
  +:+ (match safety_classification result with avoid => "AVOID" | _ => "" end).

Definition rendered_heading (st : FoodLookupState) : option string :=
  option_map heading (result st).

(** ** RestaurantBrowser.tsx *)

#[global] Instance RiskClassification_eq_dec : EqDecision RiskClassification.
Proof. solve_decision. Defined.

(** The part of the React state that the modelled code reads or writes. *)
Record RestaurantBrowserState := {
  dishes : list Dish;
  riskAssessments : gmap string DishRiskAssessment;
  filterRisk : RiskFilter;
}.

Definition setDishes (l : list Dish) (st : RestaurantBrowserState)
    : RestaurantBrowserState :=
  {| dishes := l; riskAssessments := riskAssessments st;
     filterRisk := filterRisk st |}.

Definition setRiskAssessments (m : gmap string DishRiskAssessment)
    (st : RestaurantBrowserState) : RestaurantBrowserState :=
  {| dishes := dishes st; riskAssessments := m; filterRisk := filterRisk st |}.

Definition setFilterRisk (f : RiskFilter) (st : RestaurantBrowserState)
    : RestaurantBrowserState :=
  {| dishes := dishes st; riskAssessments := riskAssessments st;
     filterRisk := f |}.

(** The locals [riskClassification], [riskScore], [rationale] and
    [contraindications] of [calculateDishRisk]. *)
Record RiskLocals := {
  riskClassification : RiskClassification;
  riskScore : Z;
  riskRationale : string;
  riskNotes : list ContraindicationNote;
}.

(** RestaurantBrowser.tsx lines 148-157, up to the [break] *)
Definition dish_toxic (ingredient : IngredientRow) (speciesType : string)
    (toxic : ToxicityWarning) (v : RiskLocals) : RiskLocals :=
  {| riskClassification := risk_avoid;
     riskScore := 95;
     riskRationale :=
       "DANGER: " +:+ ingredient_name ingredient +:+ " is toxic to "
         +:+ speciesType +:+ "s. " +:+ or_else (effect toxic) "";
     riskNotes :=
       riskNotes v ++
       [{| note_ingredient := ingredient_name ingredient;
           note_reason := Some "toxic";
           note_severity := "critical" |}] |}.

(** lines 161-170, up to the [break] *)
Definition dish_unsafe (ingredient : IngredientRow) (speciesType : string)
    (v : RiskLocals) : RiskLocals :=
  {| riskClassification := risk_avoid;
     riskScore := 90;
     riskRationale :=
       ingredient_name ingredient +:+ " is not safe for " +:+ speciesType
         +:+ " consumption.";
     riskNotes :=
       riskNotes v ++
       [{| note_ingredient := ingredient_name ingredient;
           note_reason := Some "unsafe_for_species";
           note_severity := "high" |}] |}.

(** lines 180-196 *)
Definition dish_contraindication (ingredient : IngredientRow)
    (contraindication : option ContraindicationRow) (v : RiskLocals)
    : RiskLocals :=
  match contraindication with
  | Some c =>
      if type_is "avoid" c then
        {| riskClassification := risk_caution;
           riskScore := Z.max (riskScore v) 70;
           riskRationale :=
             "Contains " +:+ ingredient_name ingredient +:+ ": "
               +:+ interpolate (contra_rationale c);
           riskNotes :=
             riskNotes v ++
             [{| note_ingredient := ingredient_name ingredient;
                 note_reason := contra_rationale c;
                 note_severity := "medium" |}] |}
      else if type_is "limit" c then
        match riskClassification v with
        | risk_neutral =>
            {| riskClassification := risk_caution;
               riskScore := Z.max (riskScore v) 60;
               riskRationale := riskRationale v;
               riskNotes := riskNotes v |}
        | _ => v
        end
      else v
  | None => v
  end.

(** lines 200-204 *)
Definition dish_default (v : RiskLocals) : RiskLocals :=
  match riskClassification v, riskNotes v with
  | risk_neutral, [] =>
      {| riskClassification := risk_safe;
         riskScore := 20;
         riskRationale := "This dish appears safe based on your health profile.";
         riskNotes := riskNotes v |}
  | _, _ => v
  end.

(** ['all' | 'safe' | 'beneficial'] filter test:
    [assessment?.risk_classification === c] *)
Definition classified_as (assessment : option DishRiskAssessment)
    (c : RiskClassification) : bool :=
  match assessment with
  | Some a => bool_decide (risk_classification a = c)
  | None => false
  end.

(** lines 257-266 *)
Definition filteredDishes (st : RestaurantBrowserState) : list Dish :=
  List.filter
    (fun dish =>
       let assessment := riskAssessments st !! dish_id dish in
       match filterRisk st with
       | filter_safe =>
           classified_as assessment risk_safe
           || classified_as assessment risk_beneficial
       | filter_beneficial => classified_as assessment risk_beneficial
       | filter_all => negb (classified_as assessment risk_avoid)
       end)
    (dishes st).

Section RestaurantBrowser.
Context {RS : Type} `{Supabase RS} {U : Type}.

(** The [for (const ingredientName of dish.ingredients)] loop, lines
    135-198; a [break] is a return of the locals without the rest. *)
Fixpoint ingredient_loop (speciesType : string) (names : list string)
    (v : RiskLocals) : M RS U RiskLocals :=
  match names with
  | [] => ret v
  | ingredientName :: rest =>
      let! ingredient :=
        await (ingredients_ilike ingredientName None)
              (EvIngredient ingredientName None) in
      match ingredient with
      | Some ingredient =>
          match toxicForSpecies (toxicity_warnings ingredient) speciesType
          with
          | Some toxic => ret (dish_toxic ingredient speciesType toxic v)
          | None =>
              if marked_unsafe ingredient speciesType
              then ret (dish_unsafe ingredient speciesType v)
              else
                let! contraindication :=
                  await (contraindication_for (ingredient_id ingredient)
                           speciesType)
                        (EvContraindication (ingredient_id ingredient)
                           speciesType) in
                ingredient_loop speciesType rest
                  (dish_contraindication ingredient contraindication v)
          end
      | None => ingredient_loop speciesType rest v
      end
  end.

Definition unable_to_assess (dish : Dish) : DishRiskAssessment :=
  {| assessment_dish_id := dish_id dish;
     risk_classification := risk_neutral;
     risk_score := 50;
     risk_rationale := "Unable to assess risk at this time.";
     contraindications := [];
     recommended_substitutions := [] |}.

(** lines 121-225 *)
Definition calculateDishRisk (dish : Dish) (userId : string)
    : M RS U DishRiskAssessment :=
  try_catch
    (let! profile := await (profiles_by_id userId) (EvProfile userId) in
     let speciesType := speciesTypeOf profile in
     let! v :=
       ingredient_loop speciesType (ingredients dish)
         {| riskClassification := risk_neutral;
            riskScore := 50;
            riskRationale := "This dish has been reviewed for your profile.";
            riskNotes := [] |} in
     let v := dish_default v in
     ret {| assessment_dish_id := dish_id dish;
            risk_classification := riskClassification v;
            risk_score := riskScore v;
            risk_rationale := riskRationale v;
            contraindications := riskNotes v;
            recommended_substitutions := [] |})
    (fun error =>
       let! _ := console_error "Error calculating risk:" error in
       ret (unable_to_assess dish)).

(** The [for (const dish of dishList)] loop, lines 99-113. *)
Fixpoint dish_loop (userId : string) (dishList : list Dish)
    (assessmentMap : gmap string DishRiskAssessment)
    : M RS U (gmap string DishRiskAssessment) :=
  match dishList with
  | [] => ret assessmentMap
  | dish :: rest =>
      let! assessment := calculateDishRisk dish userId in
      let assessmentMap := <[dish_id dish := assessment]> assessmentMap in
      let! error :=
        await (dish_risk_upsert userId assessment)
              (EvUpsertAssessment userId assessment) in
      let! _ :=
        match error with
        | Some error => console_error "Error saving assessment:" error
        | None => ret tt
        end in
      dish_loop userId rest assessmentMap
  end.
End RestaurantBrowser.

Section RestaurantBrowserHandlers.
Context {RS : Type} `{Supabase RS}.

Local Abbreviation Handler := (M RS RestaurantBrowserState).

(** lines 92-119 *)
Definition assessDishRisks (dishList : list Dish) : Handler unit :=
  try_catch
    (let! user := await auth_getUser EvGetUser in
     match user with
     | None => ret tt
     | Some user =>
         let! assessmentMap := dish_loop (user_id user) dishList ∅ in
         set_state (setRiskAssessments assessmentMap)
     end)
    (fun error => console_error "Error assessing dish risks:" error).

(** lines 75-90; [data || []] is the list or the empty list. *)
Definition loadDishes (restaurantId : string) : Handler unit :=
  try_catch
    (let! '(data, error) :=
       await (dishes_of_restaurant restaurantId) (EvDishes restaurantId) in
     match error with
     | Some error => throw error
     | None =>
         let! _ := set_state (setDishes (default [] data)) in
         assessDishRisks (default [] data)
     end)
    (fun error => console_error "Error loading dishes:" error).
End RestaurantBrowserHandlers.

(** ** An in-memory stand-in for the hosted database

    Used by the worked examples only.  It holds the rows of the tables the
    two components read, answers a pattern the way [ilike] does for search
    text without wildcards of its own, counts the calls it has answered and
    can reject one of them. *)
Module InMemory.

Record Db := {
  session : option User;
  profiles : list (string * ProfileRow);
  ingredient_rows : list IngredientRow;
  contraindication_rows : list (string * string * ContraindicationRow);
  answered : nat;
  outage : option nat;
}.

Definition lower_ascii (c : ascii) : ascii :=
  let n := nat_of_ascii c in
  if ((65 <=? n) && (n <=? 90))%nat then ascii_of_nat (n + 32) else c.

Fixpoint lower (s : string) : string :=
  match s with
  | EmptyString => EmptyString
  | String c s' => String (lower_ascii c) (lower s')
  end.

Definition ilike (pattern name : string) : bool :=
  let n := String.length pattern in
  if ((2 <=? n)%nat && String.prefix "%" pattern
      && String.eqb (String.substring (n - 1) 1 pattern) "%")%bool
  then
    match String.index 0 (lower (String.substring 1 (n - 2) pattern))
            (lower name) with
    | Some _ => true
    | None => false
    end
  else String.eqb (lower pattern) (lower name).

(** [.maybeSingle()]: the row when there is exactly one. *)
Definition maybeSingle {A} (rows : list A) : option A :=
  match rows with
  | [row] => Some row
  | _ => None
  end.

Definition answer {A} (data : Db -> A) (db : Db) : completion A * Db :=
  let db' :=
    {| session := session db; profiles := profiles db;
       ingredient_rows := ingredient_rows db;
       contraindication_rows := contraindication_rows db;
       answered := S (answered db); outage := outage db |} in
  if bool_decide (outage db = Some (answered db))
  then (Thrown "TypeError: Failed to fetch", db')
  else (Returned (data db), db').

Definition matching_contraindications (ingredient speciesType : string)
    (db : Db) : list ContraindicationRow :=
  map snd
    (List.filter
       (fun row =>
          String.eqb (fst (fst row)) ingredient
          && String.eqb (snd (fst row)) speciesType)
       (contraindication_rows db)).

Definition supabase : Supabase Db := {|
  ingredients_ilike pattern limit :=
    answer (fun db =>
      let rows :=
        List.filter (fun row => ilike pattern (ingredient_name row))
          (ingredient_rows db) in
      maybeSingle (match limit with Some n => take n rows | None => rows end));
  auth_getUser := answer session;
  profiles_by_id id :=
    answer (fun db =>
      maybeSingle
        (map snd (List.filter (fun row => String.eqb (fst row) id)
                    (profiles db))));
  contraindications_for ingredient speciesType :=
    answer (fun db => Some (matching_contraindications ingredient speciesType db));
  contraindication_for ingredient speciesType :=
    answer (fun db =>
      maybeSingle (matching_contraindications ingredient speciesType db));
  lookup_history_insert _ _ := answer (fun _ => tt);
  lookup_history_recent := answer (fun _ => Some []);
  dish_risk_upsert _ _ := answer (fun _ => None);
  dishes_of_restaurant _ := answer (fun _ => (Some [], None));
|}.

(** Rows after the seed of the food-ecosystem migration. *)
Definition salmon : IngredientRow :=
  {| ingredient_id := "ing-salmon"; ingredient_name := "Salmon";
     species_safe :=
       Some (list_to_map [("human", true); ("dog", true); ("cat", true)]);
     toxicity_warnings := Some [] |}.

Definition onion : IngredientRow :=
  {| ingredient_id := "ing-onion"; ingredient_name := "Onion";
     species_safe :=
       Some (list_to_map [("human", true); ("dog", false); ("cat", false)]);
     toxicity_warnings :=
       Some [{| species := Some ["dog"; "cat"];
                effect := Some "hemolytic_anemia" |}] |}.

Definition quinoa : IngredientRow :=
  {| ingredient_id := "ing-quinoa"; ingredient_name := "Quinoa";
     species_safe :=
       Some (list_to_map [("human", true); ("dog", true); ("cat", true)]);
     toxicity_warnings := Some [] |}.

(** A row in the same shape whose warning lists humans. *)
Definition bitter_almond : IngredientRow :=
  {| ingredient_id := "ing-bitter-almond"; ingredient_name := "Bitter Almond";
     species_safe :=
       Some (list_to_map [("human", false); ("dog", false); ("cat", false)]);
     toxicity_warnings :=
       Some [{| species := Some ["human"; "dog"; "cat"];
                effect := Some "cyanide_poisoning" |}] |}.

Definition ckd_salmon : ContraindicationRow :=
  {| condition_name := "Chronic Kidney Disease";
     contraindication_type := "limit";
     contra_rationale :=
       Some "High phosphorus content should be limited in CKD patients" |}.

Definition ckd_onion : ContraindicationRow :=
  {| condition_name := "Chronic Kidney Disease";
     contraindication_type := "avoid";
     contra_rationale :=
       Some "Toxic to dogs and cats, causes hemolytic anemia" |}.

Definition pregnancy_almond : ContraindicationRow :=
  {| condition_name := "Pregnancy";
     contraindication_type := "avoid";
     contra_rationale := Some "Amygdalin releases cyanide" |}.

Definition seeded (fail : option nat) : Db :=
  {| session := Some {| user_id := "user-1" |};
     profiles := [("user-1", {| species_type := "human" |})];
     ingredient_rows := [salmon; onion; quinoa; bitter_almond];
     contraindication_rows :=
       [("ing-salmon", "human", ckd_salmon);
        ("ing-onion", "dog", ckd_onion);
        ("ing-bitter-almond", "human", pregnancy_almond)];
     answered := 0;
     outage := fail |}.

Definition idle : FoodLookupState :=
  {| loading := false; result := None; recentLookups := [] |}.

Definition menu : RestaurantBrowserState :=
  {| dishes := []; riskAssessments := ∅; filterRisk := filter_all |}.

Definition quinoa_bowl : Dish :=
  {| dish_id := "dish-1"; dish_name := "Quinoa Bowl";
     ingredients := ["Quinoa"; "Onion"] |}.

Definition salmon_plate : Dish :=
  {| dish_id := "dish-2"; dish_name := "Salmon Plate";
     ingredients := ["Salmon"; "Quinoa"] |}.

Definition almond_cake : Dish :=
  {| dish_id := "dish-3"; dish_name := "Almond Cake";
     ingredients := ["Bitter Almond"] |}.

End InMemory.

(** * Vocabulary of the properties *)

(** The invariant of the ingredient loop. *)
Definition locals_ok (v : RiskLocals) : Prop :=
  match riskClassification v with
  | risk_neutral => riskScore v = 50 /\ riskNotes v = []
  | risk_caution => riskScore v = 60 \/ riskScore v = 70
  | risk_avoid => (riskScore v = 90 \/ riskScore v = 95) /\ riskNotes v <> []
  | risk_safe | risk_beneficial => False
  end.

(** What holds of the locals whenever the loop goes on to the next
    ingredient: no [break] was taken. *)
Definition in_loop (v : RiskLocals) : Prop :=
  locals_ok v /\ riskClassification v <> risk_avoid.


(** ** Reading a sequence of calls *)

(** The classification queries of a lookup have all returned: the
    ingredient query; when it found a row, the user query; and when that
    found a user, the profile and the contraindication queries. *)
Definition classified (tr : list Event) : bool :=
  match tr with
  | EvIngredient _ _ (Returned None) :: _ => true
  | EvIngredient _ _ (Returned (Some _)) :: EvGetUser (Returned None) :: _ =>
      true
  | EvIngredient _ _ (Returned (Some _)) :: EvGetUser (Returned (Some _))
      :: EvProfile _ (Returned _) :: EvContraindications _ _ (Returned _) :: _ =>
      true
  | _ => false
  end.

(** The ingredient query of a lookup returned no row. *)
Definition found_nothing (tr : list Event) : bool :=
  match tr with
  | EvIngredient _ _ (Returned None) :: _ => true
  | _ => false
  end.

(** An ingredient row that neither the toxicity check nor the species flag
    stops. *)
Definition harmless (ingredient : IngredientRow) (speciesType : string)
    : bool :=
  match toxicForSpecies (toxicity_warnings ingredient) speciesType with
  | Some _ => false
  | None => negb (marked_unsafe ingredient speciesType)
  end.

(** A lookup in which every rule falls through: the ingredient row is
    found, the user and the profile are there, the row is harmless for the
    profile's species and the contraindication query matches no row. *)
Definition lookup_falls_through (tr : list Event) : bool :=
  match tr with
  | EvIngredient _ _ (Returned (Some ingredient))
      :: EvGetUser (Returned (Some _))
      :: EvProfile _ (Returned (Some profile))
      :: EvContraindications _ _ (Returned rows) :: _ =>
      harmless ingredient (speciesTypeOf (Some profile))
      && match rows with
         | None | Some [] => true
         | Some (_ :: _) => false
         end
  | _ => false
  end.

(** A call of the ingredient loop at which the toxicity check or the
    species flag matches. *)
Definition stops_loop (speciesType : string) (e : Event) : bool :=
  match e with
  | EvIngredient _ _ (Returned (Some ingredient)) =>
      negb (harmless ingredient speciesType)
  | _ => false
  end.

(** A call of the ingredient loop that falls through. *)
Definition falls_through (speciesType : string) (e : Event) : bool :=
  match e with
  | EvIngredient _ _ (Returned (Some ingredient)) =>
      harmless ingredient speciesType
  | EvContraindication _ _ (Returned None) => true
  | _ => false
  end.

(** A dish assessment in which every ingredient falls through. *)
Definition dish_falls_through (tr : list Event) : bool :=
  match tr with
  | EvProfile _ (Returned (Some profile)) :: calls =>
      forallb (falls_through (speciesTypeOf (Some profile))) calls
  | _ => false
  end.

(** The names asked of the [ingredients] table, in order of asking. *)
Definition ingredient_queries (tr : list Event) : list string :=
  omap (fun e => match e with
                 | EvIngredient pattern _ _ => Some pattern
                 | _ => None
                 end) tr.

(** A call that reads an ingredient row or its contraindication. *)
Definition ingredient_call (e : Event) : bool :=
  match e with
  | EvIngredient _ None _ | EvContraindication _ _ _ => true
  | _ => false
  end.

(** The calls made for one dish by [assessDishRisks]: the profile, then
    ingredient calls that ask for the dish's ingredients in order, as far as
    the loop went, then the upsert of the dish's assessment. *)
Definition dish_segment (dish : Dish) (seg : list Event) : Prop :=
  exists id profile calls user a r,
    seg = EvProfile id profile :: calls ++ [EvUpsertAssessment user a r]
    /\ forallb ingredient_call calls = true
    /\ ingredient_queries calls `prefix_of` ingredients dish
    /\ assessment_dish_id a = dish_id dish.

(** The world with another React state. *)
Definition with_ui {RS U} (u : U) (w : World RS U) : World RS U :=
  {| remote := remote w; events := events w; console := console w; ui := u |}.

(** ** Runs *)

(** A handler run that returns. *)
Definition returns {RS U A} (p : M RS U A) (w : World RS U) : Prop :=
  exists a w', p w = (Returned a, w').

(** In a sequence of calls the last one threw [e] and no other threw. *)
Definition last_call_threw (tr : list Event) (e : exn) : Prop :=
  exists pre ev, tr = pre ++ [ev] /\ failure ev = Some e /\ failures pre = [].

(** The runs of the ingredient loop: the calls it makes from given locals,
    with what each call answered, and how it ends.  One rule for each way
    through the loop body. *)
Inductive loop_run (speciesType : string)
    : list string -> RiskLocals -> list Event -> completion RiskLocals -> Prop :=
| run_done v :
    loop_run speciesType [] v [] (Returned v)
| run_ingredient_threw name rest v e :
    loop_run speciesType (name :: rest) v
      [EvIngredient name None (Thrown e)] (Thrown e)
| run_not_found name rest v tr r :
    loop_run speciesType rest v tr r ->
    loop_run speciesType (name :: rest) v
      (EvIngredient name None (Returned None) :: tr) r
| run_toxic name rest v ingredient toxic :
    toxicForSpecies (toxicity_warnings ingredient) speciesType = Some toxic ->
    loop_run speciesType (name :: rest) v
      [EvIngredient name None (Returned (Some ingredient))]
      (Returned (dish_toxic ingredient speciesType toxic v))
| run_unsafe name rest v ingredient :
    toxicForSpecies (toxicity_warnings ingredient) speciesType = None ->
    marked_unsafe ingredient speciesType = true ->
    loop_run speciesType (name :: rest) v
      [EvIngredient name None (Returned (Some ingredient))]
      (Returned (dish_unsafe ingredient speciesType v))
| run_contraindication_threw name rest v ingredient e :
    toxicForSpecies (toxicity_warnings ingredient) speciesType = None ->
    marked_unsafe ingredient speciesType = false ->
    loop_run speciesType (name :: rest) v
      [EvIngredient name None (Returned (Some ingredient));
       EvContraindication (ingredient_id ingredient) speciesType (Thrown e)]
      (Thrown e)
| run_next name rest v ingredient c tr r :
    toxicForSpecies (toxicity_warnings ingredient) speciesType = None ->
    marked_unsafe ingredient speciesType = false ->
    loop_run speciesType rest (dish_contraindication ingredient c v) tr r ->
    loop_run speciesType (name :: rest) v
      (EvIngredient name None (Returned (Some ingredient))
       :: EvContraindication (ingredient_id ingredient) speciesType (Returned c)
       :: tr) r.

(** A handler that neither reads nor writes the React state: run from
    another state it does the same and leaves that state in place. *)
Definition oblivious {RS U A} (p : M RS U A) : Prop :=
  forall w u, p (with_ui u w) = ((p w).1, with_ui u (p w).2).

(** * The restaurant list and the recipe favourites

    The first screen of RestaurantBrowser.tsx and, from the recipe component
    that follows it in the same file, the favourites.  Their tables are
    reached through an interface of their own, and their calls are kept in
    a log of their own beside the React state. *)

(** Of a restaurant the code below reads [id] and [cuisine_type]; the
    column [cuisine_type] may be null. *)
Record Restaurant := {
  restaurant_id : string;
  restaurant_name : string;
  cuisine_type : option string;
}.

(** A row of [user_recipes] as [loadUserRecipes] selects it, with the columns
    the code reads; [is_favorite] may be null. *)
Record UserRecipe := {
  recipe_id : string;
  is_favorite : option bool;
}.

Class SupabaseCatalog (RS : Type) := {
  (** [from('restaurants').select('*').order('rating', ..)], answering [data]
      and [error] *)
  restaurants_by_rating :
    RS -> completion (option (list Restaurant) * option exn) * RS;
  (** [from('user_recipes').select('recipe_id, is_favorite, tried, rating')],
      answering [data] and [error] *)
  user_recipes_select :
    RS -> completion (option (list UserRecipe) * option exn) * RS;
  (** [from('user_recipes').update({ is_favorite }).eq('recipe_id', r)
        .eq('profile_id', p)], answering [error] *)
  user_recipes_update :
    string -> string -> bool -> RS -> completion (option exn) * RS;
  (** [from('user_recipes').insert({ profile_id, recipe_id, is_favorite })],
      answering [error] *)
  user_recipes_insert :
    string -> string -> bool -> RS -> completion (option exn) * RS;
}.

(** A call on these tables with its outcome. *)
Inductive Call :=
| CallRestaurants (r : completion (option (list Restaurant) * option exn))
| CallUserRecipes (r : completion (option (list UserRecipe) * option exn))
| CallUpdateFavorite (recipe profile : string) (favorite : bool)
    (r : completion (option exn))
| CallInsertFavorite (profile recipe : string) (favorite : bool)
    (r : completion (option exn)).

(** A write that returned without reporting an error. *)
Definition accepted (r : completion (option exn)) : bool :=
  match r with
  | Returned None => true
  | _ => false
  end.

(** The React state of a component with the log of its calls on these
    tables, oldest first. *)
Record Logged (St : Type) := {
  react : St;
  calls : list Call;
}.
Arguments react {St} _.
Arguments calls {St} _.

Section Catalog.
Context {RS : Type} {St : Type}.

(** [await] of one call on these tables. *)
Definition await_call {A} (call : RS -> completion A * RS)
    (log : completion A -> Call) : M RS (Logged St) A :=
  fun w =>
    let '(r, s) := call (remote w) in
    (r, {| remote := s; events := events w; console := console w;
           ui := {| react := react (ui w);
                    calls := calls (ui w) ++ [log r] |} |}).

(** A React state setter of the component. *)
Definition set_react (f : St -> St) : M RS (Logged St) unit :=
  set_state (fun l => {| react := f (react l); calls := calls l |}).

(** The state a component starts a handler in, with an empty log. *)
Definition fresh (st : St) : Logged St := {| react := st; calls := [] |}.
End Catalog.

(** *** The restaurant list, RestaurantBrowser.tsx lines 41-73 and 268-326 *)

Record RestaurantListState := {
  restaurants : list Restaurant;
  restaurants_loading : bool;
}.

Definition setRestaurants (l : list Restaurant) (st : RestaurantListState)
    : RestaurantListState :=
  {| restaurants := l; restaurants_loading := restaurants_loading st |}.

Definition setRestaurantsLoading (b : bool) (st : RestaurantListState)
    : RestaurantListState :=
  {| restaurants := restaurants st; restaurants_loading := b |}.

Section RestaurantList.
Context {RS : Type} `{SupabaseCatalog RS}.

(** lines 59-73 *)
Definition loadRestaurants : M RS (Logged RestaurantListState) unit :=
  try_finally
    (try_catch
       (let! '(data, error) :=
          await_call restaurants_by_rating CallRestaurants in
        match error with
        | Some error => throw error
        | None => set_react (setRestaurants (default [] data))
        end)
       (fun error => console_error "Error loading restaurants:" error))
    (set_react (setRestaurantsLoading false)).
End RestaurantList.

(** [.filter(Boolean)] on the cuisine types: null and the empty string go. *)
Definition truthy_cuisines (l : list (option string)) : list string :=
  omap (fun c => match c with
                 | Some c => if truthy c then Some c else None
                 | None => None
                 end) l.

(** [Array.from(new Set(l))]: the elements of [l] in the order of their
    first occurrence; [seen] is what the set holds already. *)
Fixpoint first_occurrences (seen : list string) (l : list string)
    : list string :=
  match l with
  | [] => []
  | x :: l' =>
      if bool_decide (x ∈ seen) then first_occurrences seen l'
      else x :: first_occurrences (x :: seen) l'
  end.

(** line 268 *)
Definition cuisineTypes (restaurants : list Restaurant) : list string :=
  first_occurrences [] (truthy_cuisines (map cuisine_type restaurants)).

(** lines 325-326: the restaurants listed under a cuisine filter. *)
Definition shownRestaurants (cuisineFilter : string)
    (restaurants : list Restaurant) : list Restaurant :=
  List.filter
    (fun r => String.eqb cuisineFilter "all"
              || bool_decide (cuisine_type r = Some cuisineFilter))
    restaurants.

(** *** The recipe favourites, RestaurantBrowser.tsx lines 574-630 *)

Record RecipeBrowserState := {
  userRecipes : list UserRecipe;
}.

Definition setUserRecipes (l : list UserRecipe) (st : RecipeBrowserState)
    : RecipeBrowserState :=
  {| userRecipes := l |}.

(** [userRecipes.find(ur => ur.recipe_id === recipeId)] *)
Definition find_user_recipe (userRecipes : list UserRecipe)
    (recipeId : string) : option UserRecipe :=
  List.find (fun ur => String.eqb (recipe_id ur) recipeId) userRecipes.

(** Truthiness of a boolean that may be null. *)
Definition truthy_flag (b : option bool) : bool :=
  match b with Some b => b | None => false end.

(** lines 628-630: [find(..)?.is_favorite || false], on the [userRecipes] of
    the render. *)
Definition isFavorite (userRecipes : list UserRecipe) (recipeId : string)
    : bool :=
  match find_user_recipe userRecipes recipeId with
  | Some ur => truthy_flag (is_favorite ur)
  | None => false
  end.

Section RecipeFavourites.
Context {RS : Type} `{Supabase RS} `{SupabaseCatalog RS}.

Local Abbreviation Handler := (M RS (Logged RecipeBrowserState)).

(** lines 574-588 *)
Definition loadUserRecipes : Handler unit :=
  try_catch
    (let! user := await auth_getUser EvGetUser in
     match user with
     | None => ret tt
     | Some _ =>
         let! '(data, error) :=
           await_call user_recipes_select CallUserRecipes in
         match error with
         | Some error => throw error
         | None => set_react (setUserRecipes (default [] data))
         end
     end)
    (fun error => console_error "Error loading user recipes:" error).

(** lines 590-621.  [userRecipes] is the list of the render that created the
    handler.  The call [loadUserRecipes()] at line 617 is not awaited; the
    handler answers whether it made that call. *)
Definition toggleFavorite (userRecipes : list UserRecipe)
    (recipeId : string) : Handler bool :=
  try_catch
    (let! user := await auth_getUser EvGetUser in
     match user with
     | None => ret false
     | Some user =>
         let existingUserRecipe := find_user_recipe userRecipes recipeId in
         let! _ :=
           match existingUserRecipe with
           | Some existingUserRecipe =>
               let favorite :=
                 negb (truthy_flag (is_favorite existingUserRecipe)) in
               let! error :=
                 await_call
                   (user_recipes_update recipeId (user_id user) favorite)
                   (CallUpdateFavorite recipeId (user_id user) favorite) in
               match error with
               | Some error => throw error
               | None => ret tt
               end
           | None =>
               let! error :=
                 await_call
                   (user_recipes_insert (user_id user) recipeId true)
                   (CallInsertFavorite (user_id user) recipeId true) in
               match error with
               | Some error => throw error
               | None => ret tt
               end
           end in
         ret true
     end)
    (fun error =>
       let! _ := console_error "Error toggling favorite:" error in
       ret false).

(** A click on the heart as the event loop runs it: the handler, on the
    list of the current render, then the body of the [loadUserRecipes()] it
    left behind. *)
Definition onToggleFavorite (recipeId : string) : Handler unit :=
  fun w =>
    (let! reload := toggleFavorite (userRecipes (react (ui w))) recipeId in
     if reload then loadUserRecipes else ret tt) w.
End RecipeFavourites.

(** ** More readings of a lookup *)

(** A contraindication row came back whose type the lookup acts on. *)
Definition contraindicated (rows : option (list ContraindicationRow)) : bool :=
  match rows with
  | Some rows =>
      existsb (fun c => type_is "avoid" c || type_is "caution" c
                        || type_is "limit" c) rows
  | None => false
  end.

(** The classification of a lookup as a table over what the remote
    answered, for a row that was found by a signed-in user. *)
Definition lookup_table (ingredient : IngredientRow) (speciesType : string)
    (rows : option (list ContraindicationRow)) : SafetyClassification :=
  if contraindicated rows then caution
  else if harmless ingredient speciesType then safe
  else avoid.

(** ** More readings of a dish assessment *)

(** An ingredient query that found no row. *)
Definition not_found (e : Event) : bool :=
  match e with
  | EvIngredient _ _ (Returned None) => true
  | _ => false
  end.

(** An ingredient query whose row carries a toxicity warning for the
    species. *)
Definition toxic_at (speciesType : string) (e : Event) : bool :=
  match e with
  | EvIngredient _ _ (Returned (Some ingredient)) =>
      match toxicForSpecies (toxicity_warnings ingredient) speciesType with
      | Some _ => true
      | None => false
      end
  | _ => false
  end.

(** A contraindication query that returned a row of the given type. *)
Definition contraindication_of (type : string) (e : Event) : bool :=
  match e with
  | EvContraindication _ _ (Returned (Some c)) => type_is type c
  | _ => false
  end.

(** The classification and score of the locals after the calls of a loop
    run that returned, from the locals before it. *)
Definition loop_table (speciesType : string) (v : RiskLocals)
    (calls : list Event) : RiskClassification * Z :=
  if existsb (toxic_at speciesType) calls then (risk_avoid, 95)
  else if existsb (stops_loop speciesType) calls then (risk_avoid, 90)
  else if existsb (contraindication_of "avoid") calls
  then (risk_caution, Z.max (riskScore v) 70)
  else if existsb (contraindication_of "limit") calls
  then match riskClassification v with
       | risk_neutral => (risk_caution, Z.max (riskScore v) 60)
       | c => (c, riskScore v)
       end
  else (riskClassification v, riskScore v).

(** The classification and score of a dish as a table over what the remote
    answered, first row that applies. *)
Definition dish_table (speciesType : string) (calls : list Event)
    : RiskClassification * Z :=
  if existsb (toxic_at speciesType) calls then (risk_avoid, 95)
  else if existsb (stops_loop speciesType) calls then (risk_avoid, 90)
  else if existsb (contraindication_of "avoid") calls then (risk_caution, 70)
  else if existsb (contraindication_of "limit") calls then (risk_caution, 60)
  else (risk_safe, 20).

(** An upsert that threw. *)
Definition upsert_threw (e : Event) : bool :=
  match e with
  | EvUpsertAssessment _ _ (Thrown _) => true
  | _ => false
  end.

(** A run of [assessDishRisks] that does not reach [setRiskAssessments]:
    the user query threw or found nobody, or an upsert threw. *)
Definition abandoned (tr : list Event) : bool :=
  match tr with
  | EvGetUser (Returned (Some _)) :: calls => existsb upsert_threw calls
  | _ => true
  end.

(** No stored assessment is 'beneficial'. *)
Definition none_beneficial (st : RestaurantBrowserState) : Prop :=
  forall id a,
    riskAssessments st !! id = Some a ->
    risk_classification a <> risk_beneficial.

(** More worked inputs for the stand-in. *)
Module Examples.

(** Nobody is signed in. *)
Definition signed_out : InMemory.Db :=
  {| InMemory.session := None;
     InMemory.profiles := [];
     InMemory.ingredient_rows := InMemory.ingredient_rows (InMemory.seeded None);
     InMemory.contraindication_rows :=
       InMemory.contraindication_rows (InMemory.seeded None);
     InMemory.answered := 0;
     InMemory.outage := None |}.

(** A space, a tab and a no-break space (U+00A0, two bytes). *)
Definition blank_query : string := string_of_bytes [32; 9; 194; 160]%N.

Definition tofu_wrap : Dish :=
  {| dish_id := "dish-4"; dish_name := "Tofu Wrap";
     ingredients := ["Tofu"; "Seitan"] |}.

Definition thai : Restaurant :=
  {| restaurant_id := "r-1"; restaurant_name := "Green Bowl";
     cuisine_type := Some "Thai" |}.

Definition canteen : Restaurant :=
  {| restaurant_id := "r-2"; restaurant_name := "Canteen";
     cuisine_type := None |}.

Definition thai_too : Restaurant :=
  {| restaurant_id := "r-3"; restaurant_name := "Lemongrass";
     cuisine_type := Some "Thai" |}.

Definition favourites : list UserRecipe :=
  [{| recipe_id := "recipe-1"; is_favorite := Some true |};
   {| recipe_id := "recipe-2"; is_favorite := None |}].

(** The stand-in answering for the other tables: three restaurants, the
    favourites above, writes accepted. *)
Definition catalog : SupabaseCatalog InMemory.Db := {|
  restaurants_by_rating :=
    InMemory.answer (fun _ => (Some [thai; canteen; thai_too], None));
  user_recipes_select := InMemory.answer (fun _ => (Some favourites, None));
  user_recipes_update _ _ _ := InMemory.answer (fun _ => None);
  user_recipes_insert _ _ _ := InMemory.answer (fun _ => None);
|}.

End Examples.

(** ** The replies of the client

    A call of the client answers an object with a [data] and an [error]
    field, and reports a failed request in [error] with [data: null]; it
    rejects the promise only exceptionally.  [PostgrestClient] is the client
    with its whole replies; [as_destructured] is the interface above, read
    off what each call site destructures from the reply. *)

Record Reply (A : Type) := {
  reply_data : option A;
  reply_error : option exn;
}.
Arguments reply_data {A} _.
Arguments reply_error {A} _.

Class PostgrestClient (RS : Type) := {
  client_ingredients :
    string -> option nat -> RS -> completion (Reply IngredientRow) * RS;
  client_getUser : RS -> completion (Reply User) * RS;
  client_profile : string -> RS -> completion (Reply ProfileRow) * RS;
  client_contraindications :
    string -> string -> RS -> completion (Reply (list ContraindicationRow)) * RS;
  client_contraindication :
    string -> string -> RS -> completion (Reply ContraindicationRow) * RS;
  client_insert_lookup :
    string -> LookupResult -> RS -> completion (Reply unit) * RS;
  client_recent_lookups : RS -> completion (Reply (list LookupResult)) * RS;
  client_upsert_assessment :
    string -> DishRiskAssessment -> RS -> completion (Reply unit) * RS;
  client_dishes : string -> RS -> completion (Reply (list Dish)) * RS;
}.

(** What a call site keeps of a reply. *)
Definition keep {A B RS} (field : Reply A -> B)
    (call : RS -> completion (Reply A) * RS) (s : RS) : completion B * RS :=
  match call s with
  | (Returned reply, s') => (Returned (field reply), s')
  | (Thrown e, s') => (Thrown e, s')
  end.

(** The call sites of the two components:
    [const { data: x } = await ..] keeps [data] and drops [error] (the
    ingredient, user, profile, contraindication and history queries);
    [await ..insert(..)] keeps nothing; [const { error } = await ..upsert(..)]
    keeps [error]; [const { data, error } = await ..] in [loadDishes] keeps
    both. *)
Definition as_destructured {RS} (client : PostgrestClient RS) : Supabase RS := {|
  ingredients_ilike pattern limit :=
    keep reply_data (client_ingredients pattern limit);
  auth_getUser := keep reply_data client_getUser;
  profiles_by_id id := keep reply_data (client_profile id);
  contraindications_for ingredient speciesType :=
    keep reply_data (client_contraindications ingredient speciesType);
  contraindication_for ingredient speciesType :=
    keep reply_data (client_contraindication ingredient speciesType);
  lookup_history_insert profile row :=
    keep (fun _ => tt) (client_insert_lookup profile row);
  lookup_history_recent := keep reply_data client_recent_lookups;
  dish_risk_upsert profile a :=
    keep reply_error (client_upsert_assessment profile a);
  dishes_of_restaurant restaurant :=
    keep (fun reply => (reply_data reply, reply_error reply))
      (client_dishes restaurant);
|}.

(** A client that reports the request it cannot make instead of rejecting
    the promise: where [base] throws, the reply is [{ data: null, error }];
    where [base] answers, the reply carries that answer. *)
Definition report {A B RS} (reply : A -> Reply B)
    (call : RS -> completion A * RS) (s : RS) : completion (Reply B) * RS :=
  match call s with
  | (Returned a, s') => (Returned (reply a), s')
  | (Thrown e, s') =>
      (Returned {| reply_data := None; reply_error := Some e |}, s')
  end.

Definition with_data {A} (data : option A) : Reply A :=
  {| reply_data := data; reply_error := None |}.

Definition reporting {RS} (base : Supabase RS) : PostgrestClient RS := {|
  client_ingredients pattern limit :=
    report with_data (ingredients_ilike (Supabase := base) pattern limit);
  client_getUser := report with_data (auth_getUser (Supabase := base));
  client_profile id :=
    report with_data (profiles_by_id (Supabase := base) id);
  client_contraindications ingredient speciesType :=
    report with_data
      (contraindications_for (Supabase := base) ingredient speciesType);
  client_contraindication ingredient speciesType :=
    report with_data
      (contraindication_for (Supabase := base) ingredient speciesType);
  client_insert_lookup profile row :=
    report (fun _ => with_data None)
      (lookup_history_insert (Supabase := base) profile row);
  client_recent_lookups :=
    report with_data (lookup_history_recent (Supabase := base));
  client_upsert_assessment profile a :=
    report (fun error => {| reply_data := None; reply_error := error |})
      (dish_risk_upsert (Supabase := base) profile a);
  client_dishes restaurant :=
    report (fun '(data, error) =>
              {| reply_data := data; reply_error := error |})
      (dishes_of_restaurant (Supabase := base) restaurant);
|}.

(** The stand-in as such a client, and the two components on it. *)
Module Reporting.

Definition client : PostgrestClient InMemory.Db :=
  reporting InMemory.supabase.

Definition supabase : Supabase InMemory.Db := as_destructured client.

End Reporting.

(** * Properties *)

(** ** Stepping through a handler *)

(** Destructs the next remote call that the goal is stuck on. *)
Ltac next_call :=
  match goal with
  | |- context [@ingredients_ilike _ _ ?p ?l ?rs] =>
      destruct (@ingredients_ilike _ _ p l rs) as [[[?row|]|?e] ?s] eqn:?
  | |- context [@auth_getUser _ _ ?rs] =>
      destruct (@auth_getUser _ _ rs) as [[[?user|]|?e] ?s] eqn:?
  | |- context [@profiles_by_id _ _ ?i ?rs] =>
      destruct (@profiles_by_id _ _ i rs) as [[?profile|?e] ?s] eqn:?
  | |- context [@contraindications_for _ _ ?i ?t ?rs] =>
      destruct (@contraindications_for _ _ i t rs) as [[?rows|?e] ?s] eqn:?
  | |- context [@contraindication_for _ _ ?i ?t ?rs] =>
      destruct (@contraindication_for _ _ i t rs) as [[[?c|]|?e] ?s] eqn:?
  | |- context [@lookup_history_insert _ _ ?i ?r ?rs] =>
      destruct (@lookup_history_insert _ _ i r rs) as [[[]|?e] ?s] eqn:?
  | |- context [@lookup_history_recent _ _ ?rs] =>
      destruct (@lookup_history_recent _ _ rs) as [[?data|?e] ?s] eqn:?
  | |- context [@dish_risk_upsert _ _ ?i ?a ?rs] =>
      destruct (@dish_risk_upsert _ _ i a rs) as [[[?err|]|?e] ?s] eqn:?
  | |- context [@dishes_of_restaurant _ _ ?i ?rs] =>
      destruct (@dishes_of_restaurant _ _ i rs) as [[[?data [?err|]]|?e] ?s] eqn:?
  end.

(** The rule steps stay folded while a handler is stepped through. *)
Arguments dish_contraindication : simpl never.
Arguments dish_default : simpl never.
Arguments lookup_toxicity : simpl never.
Arguments lookup_species_flag : simpl never.
Arguments lookup_contraindications : simpl never.

Ltac unfold_monad :=
  unfold bind, ret, throw, try_catch, try_finally, await, console_error,
    set_state, start in *.

(** ** calculateDishRisk: what the locals can be *)

Lemma dish_contraindication_ok ingredient c v :
  in_loop v -> in_loop (dish_contraindication ingredient c v).
Proof.
  unfold in_loop, locals_ok, dish_contraindication.
  destruct c as [c|]; [|done].
  destruct (type_is "avoid" c); simpl.
  - destruct (riskClassification v); intuition (try done; lia).
  - destruct (type_is "limit" c); [|done].
    destruct (riskClassification v) eqn:E; simpl; rewrite ?E;
      intuition (try done; lia).
Qed.

Section DishRisk.
Context {RS : Type} `{Supabase RS} {U : Type}.

Lemma ingredient_loop_ok speciesType names : forall v (w : World RS U),
  in_loop v ->
  match ingredient_loop speciesType names v w with
  | (Returned v', _) => locals_ok v'
  | (Thrown _, _) => True
  end.
Proof.
  induction names as [|name rest IH]; intros v w Hv; simpl; [apply Hv|].
  unfold_monad. next_call; simpl; [| by apply IH | done].
  destruct (toxicForSpecies _ _) as [toxic|].
  { unfold locals_ok; simpl. split; [by right|]. by destruct (riskNotes v). }
  destruct (marked_unsafe _ _).
  { unfold locals_ok; simpl. split; [by left|]. by destruct (riskNotes v). }
  next_call; simpl; [| |done]; apply IH; by apply dish_contraindication_ok.
Qed.

(** Every path of [calculateDishRisk] returns: the [catch] takes what the
    [try] throws. *)
Lemma calculateDishRisk_returns dish userId (w : World RS U) :
  exists a w', calculateDishRisk dish userId w = (Returned a, w').
Proof.
  unfold calculateDishRisk. unfold_monad.
  next_call; simpl; [|eauto].
  destruct (ingredient_loop _ _ _ _) as [[v|e] w']; simpl; eauto.
Qed.

(** C4. For every dish and every behaviour of the remote,
    [calculateDishRisk] returns an assessment whose score is one of 20,
    50, 60, 70, 90, 95 (so within 0..100), at least 90 when the
    classification is 'avoid', 20 when it is 'safe', 50 when it is
    'neutral'; the classification is never 'beneficial'. *)
Theorem calculateDishRisk_scores dish userId (w : World RS U) :
  exists a w',
    calculateDishRisk dish userId w = (Returned a, w')
    /\ In (risk_score a) [20; 50; 60; 70; 90; 95]
    /\ 0 <= risk_score a <= 100
    /\ match risk_classification a with
       | risk_avoid => 90 <= risk_score a
       | risk_safe => risk_score a = 20
       | risk_neutral => risk_score a = 50
       | risk_caution => True
       | risk_beneficial => False
       end.
Proof.
  unfold calculateDishRisk. unfold_monad.
  next_call; simpl.
  2: { eexists _, _. split; [reflexivity|]. simpl. intuition lia. }
  match goal with
  | |- context [ingredient_loop ?sp ?names ?v ?w0] =>
      pose proof (ingredient_loop_ok sp names v w0) as Hloop;
      destruct (ingredient_loop sp names v w0) as [[v'|e] w']
  end; simpl.
  2: { eexists _, _. split; [reflexivity|]. simpl. intuition lia. }
  eexists _, _. split; [reflexivity|]. simpl.
  assert (locals_ok v') as Hv' by (apply Hloop; repeat split; done).
  clear Hloop. unfold locals_ok in Hv'. unfold dish_default.
  destruct v' as [c score text notes]; simpl in *.
  destruct c; try done; simpl.
  - destruct Hv' as [-> ->]. simpl. intuition lia.
  - destruct Hv' as [-> | ->]; intuition lia.
  - destruct Hv' as [[-> | ->] _]; intuition lia.
Qed.
End DishRisk.

(** ** handleLookup *)

Ltac run_lookup :=
  unfold handleLookup, lookup_try; unfold_monad; simpl;
  repeat (next_call; simpl).

Section Lookup.
Context {RS : Type} `{Supabase RS}.

(** C6. Whenever the ingredient query of a lookup returns no row, the
    handler stores the classification 'caution' with the rationale that
    the food is not in the database and no identified ingredient.  (A
    query that is blank after trimming issues no ingredient query.) *)
Theorem handleLookup_not_in_database searchQuery (s : RS) u :
  found_nothing (events (handleLookup searchQuery (start s u)).2) = true ->
  result (ui (handleLookup searchQuery (start s u)).2)
  = Some {| food_name := searchQuery;
            safety_classification := caution;
            rationale := not_in_database;
            ingredients_identified := [] |}.
Proof.
  unfold handleLookup.
  destruct (truthy (trim searchQuery)); simpl; [|done].
  run_lookup; done.
Qed.
End Lookup.

Lemma handleLookup_not_in_database_witness :
  result (ui (handleLookup (H := InMemory.supabase) "tofu"
                (start (InMemory.seeded None) InMemory.idle)).2)
  = Some {| food_name := "tofu";
            safety_classification := caution;
            rationale := not_in_database;
            ingredients_identified := [] |}.
Proof.
  apply (handleLookup_not_in_database (H := InMemory.supabase)).
  vm_compute. reflexivity.
Defined.

(** ** The rules falling through *)

Lemma harmless_lookup ingredient speciesType text :
  harmless ingredient speciesType = true ->
  lookup_species_flag ingredient speciesType
    (lookup_toxicity ingredient speciesType (safe, text)) = (safe, text).
Proof.
  unfold harmless, lookup_species_flag, lookup_toxicity.
  destruct (toxicForSpecies _ _); [done|]. simpl.
  by destruct (marked_unsafe _ _).
Qed.

Section FallThrough.
Context {RS : Type} `{Supabase RS} {U : Type}.

Lemma ingredient_loop_falls_through speciesType names :
  forall v (w : World RS U),
  exists new,
    events (ingredient_loop speciesType names v w).2 = events w ++ new
    /\ (forallb (falls_through speciesType) new = true ->
        (ingredient_loop speciesType names v w).1 = Returned v).
Proof.
  induction names as [|name rest IH]; intros v w; simpl.
  { exists []. by rewrite app_nil_r. }
  unfold_monad. next_call; simpl.
  - destruct (toxicForSpecies _ _) as [toxic|] eqn:Etox; simpl.
    { eexists [_]. split; [done|]. cbn. unfold harmless. by rewrite Etox. }
    destruct (marked_unsafe _ _) eqn:Eflag; simpl.
    { eexists [_]. split; [done|]. cbn. unfold harmless.
      by rewrite Etox, Eflag. }
    next_call; simpl.
    + match goal with
      | |- context [ingredient_loop _ _ ?v0 ?w0] =>
          destruct (IH v0 w0) as (new & -> & _)
      end.
      eexists (_ :: _ :: new). split; [by simpl; rewrite <- !app_assoc|].
      cbn. by rewrite andb_false_r.
    + change (dish_contraindication row None v) with v.
      match goal with
      | |- context [ingredient_loop _ _ ?v0 ?w0] =>
          destruct (IH v0 w0) as (new & -> & Hnew)
      end.
      eexists (_ :: _ :: new). split; [by simpl; rewrite <- !app_assoc|].
      cbn. unfold harmless. rewrite Etox, Eflag. exact Hnew.
    + eexists [_; _]. split; [by simpl; rewrite <- !app_assoc|].
      cbn. by rewrite andb_false_r.
  - match goal with
    | |- context [ingredient_loop _ _ ?v0 ?w0] =>
        destruct (IH v0 w0) as (new & -> & _)
    end.
    eexists (_ :: new). split; [by simpl; rewrite <- !app_assoc|]. done.
  - eexists [_]. by split.
Qed.

(** C2. In a lookup where the ingredient row is found, the user and the
    profile are there, no toxicity warning lists the profile's species,
    the species flag is not false and the contraindication query matches
    no row, [handleLookup] stores the classification 'safe'; and when
    every ingredient of a dish falls through in this way,
    [calculateDishRisk] returns 'safe' with score 20. *)
Theorem rules_fall_through_to_safe :
  (forall searchQuery (s : RS) u,
     lookup_falls_through
       (events (handleLookup searchQuery (start s u)).2) = true ->
     exists r,
       result (ui (handleLookup searchQuery (start s u)).2) = Some r
       /\ safety_classification r = safe)
  /\ (forall dish userId (s : RS) (u : U),
        dish_falls_through
          (events (calculateDishRisk dish userId (start s u)).2) = true ->
        exists a,
          (calculateDishRisk dish userId (start s u)).1 = Returned a
          /\ risk_classification a = risk_safe
          /\ risk_score a = 20).
Proof.
  split.
  - intros searchQuery s u. unfold handleLookup.
    destruct (truthy (trim searchQuery)); simpl; [|done].
    run_lookup; try done;
      (destruct profile as [profile|]; try done);
      intros [Hrow Hrows]%andb_true_iff;
      rewrite (harmless_lookup _ _ _ Hrow);
      repeat match goal with
             | rows : option (list ContraindicationRow) |- _ =>
                 destruct rows as [[|? ?]|]
             end; try done; simpl; eauto.
  - intros dish userId s u. unfold calculateDishRisk. unfold_monad.
    next_call; simpl; [|done].
    match goal with
    | |- context [ingredient_loop ?sp ?names ?v0 ?w0] =>
        destruct (ingredient_loop_falls_through sp names v0 w0)
          as (new & Hev & Hnew);
        destruct (ingredient_loop sp names v0 w0) as [[v'|e] w']
    end; simpl in *; rewrite Hev; simpl;
      (destruct profile as [profile|]; [|done]);
      intros Hall; specialize (Hnew Hall); [|done].
    injection Hnew as ->. simpl. eauto.
Qed.
End FallThrough.

Lemma rules_fall_through_to_safe_witness :
  (exists r,
     result (ui (handleLookup (H := InMemory.supabase) "quinoa"
                   (start (InMemory.seeded None) InMemory.idle)).2) = Some r
     /\ safety_classification r = safe)
  /\ (exists a,
        (calculateDishRisk (H := InMemory.supabase) InMemory.quinoa_bowl
           "user-1" (start (InMemory.seeded None) InMemory.menu)).1
        = Returned a
        /\ risk_classification a = risk_safe
        /\ risk_score a = 20).
Proof.
  split.
  - apply (proj1 (rules_fall_through_to_safe (H := InMemory.supabase)
                    (U := RestaurantBrowserState))).
    vm_compute. reflexivity.
  - apply (proj2 (rules_fall_through_to_safe (H := InMemory.supabase)
                    (U := RestaurantBrowserState))).
    vm_compute. reflexivity.
Defined.

(** ** The labels *)

Section Labels.
Context {RS : Type} `{Supabase RS} {U : Type}.

(** C3. Whatever [handleLookup] leaves in [result] carries one of the
    labels 'safe', 'caution', 'avoid'; and [calculateDishRisk] returns on
    every path, the [catch] included, an assessment labelled 'safe',
    'beneficial', 'neutral', 'caution' or 'avoid'. *)
Theorem classifications_are_labels :
  (forall searchQuery (w : World RS FoodLookupState) r,
     result (ui (handleLookup searchQuery w).2) = Some r ->
     In (safety_label (safety_classification r))
        ["safe"; "caution"; "avoid"])
  /\ (forall dish userId (w : World RS U),
       exists a w',
         calculateDishRisk dish userId w = (Returned a, w')
         /\ In (risk_label (risk_classification a))
              ["safe"; "beneficial"; "neutral"; "caution"; "avoid"]).
Proof.
  split.
  - intros searchQuery w r _.
    destruct (safety_classification r); simpl; auto.
  - intros dish userId w.
    destruct (calculateDishRisk_returns dish userId w) as (a & w' & Ha).
    exists a, w'. split; [exact Ha|].
    destruct (risk_classification a); simpl; auto 6.
Qed.
End Labels.

Lemma classifications_are_labels_witness :
  In (safety_label caution) ["safe"; "caution"; "avoid"].
Proof.
  apply (proj1 (classifications_are_labels (H := InMemory.supabase)
                  (U := RestaurantBrowserState))
           "tofu" (start (InMemory.seeded None) InMemory.idle)
           {| food_name := "tofu"; safety_classification := caution;
              rationale := not_in_database; ingredients_identified := [] |}).
  vm_compute. reflexivity.
Defined.

(** C8. The heading of a result card is decided by the classification of
    the result alone: 'SAFE' for 'safe', 'USE CAUTION' for 'caution',
    'AVOID' for 'avoid'. *)
Theorem heading_by_classification result :
  heading result
  = match safety_classification result with
    | safe => "SAFE"
    | caution => "USE CAUTION"
    | avoid => "AVOID"
    end.
Proof. unfold heading. by destruct (safety_classification result). Qed.

(** ** The dish filter *)

(** C7. Under every filter setting a dish whose stored assessment is
    'avoid' is left out of the filtered list, the 'all' setting included;
    and under the 'safe' setting a dish is listed exactly when its stored
    assessment is 'safe' or 'beneficial'. *)
Theorem filteredDishes_leaves_out_avoid st :
  (forall dish a,
     In dish (filteredDishes st) ->
     riskAssessments st !! dish_id dish = Some a ->
     risk_classification a <> risk_avoid)
  /\ (filterRisk st = filter_safe ->
      forall dish,
        In dish (filteredDishes st)
        <-> In dish (dishes st)
            /\ exists a,
                 riskAssessments st !! dish_id dish = Some a
                 /\ (risk_classification a = risk_safe
                     \/ risk_classification a = risk_beneficial)).
Proof.
  unfold filteredDishes. split.
  - intros dish a [_ Hkeep]%filter_In Ha Havoid.
    rewrite Ha in Hkeep. unfold classified_as in Hkeep.
    rewrite Havoid in Hkeep.
    destruct (filterRisk st); simpl in Hkeep; done.
  - intros -> dish. rewrite filter_In. unfold classified_as.
    destruct (riskAssessments st !! dish_id dish) as [a|]; simpl.
    + split; intros [Hin Hc]; (split; [exact Hin|]).
      * exists a. split; [done|].
        apply orb_true_iff in Hc as [Hc|Hc]; apply bool_decide_eq_true in Hc;
          auto.
      * destruct Hc as (a' & [= <-] & Hc). apply orb_true_iff.
        destruct Hc; [left|right]; by apply bool_decide_eq_true.
    + split; [by intros [_ ?]|by intros [_ (a & ? & _)]].
Qed.

Lemma filteredDishes_leaves_out_avoid_witness :
  risk_classification
    {| assessment_dish_id := "dish-2"; risk_classification := risk_safe;
       risk_score := 20; risk_rationale := ""; contraindications := [];
       recommended_substitutions := [] |} <> risk_avoid
  /\ In InMemory.salmon_plate
       (filteredDishes
          {| dishes := [InMemory.almond_cake; InMemory.salmon_plate];
             riskAssessments :=
               {[ "dish-2" :=
                    {| assessment_dish_id := "dish-2";
                       risk_classification := risk_safe;
                       risk_score := 20; risk_rationale := "";
                       contraindications := [];
                       recommended_substitutions := [] |} ]};
             filterRisk := filter_safe |}).
Proof.
  pose (st := {| dishes := [InMemory.almond_cake; InMemory.salmon_plate];
                 riskAssessments :=
                   {[ "dish-2" :=
                        {| assessment_dish_id := "dish-2";
                           risk_classification := risk_safe;
                           risk_score := 20; risk_rationale := "";
                           contraindications := [];
                           recommended_substitutions := [] |} ]};
                 filterRisk := filter_safe |}).
  split.
  - apply (proj1 (filteredDishes_leaves_out_avoid st) InMemory.salmon_plate).
    + vm_compute. left. reflexivity.
    + vm_compute. reflexivity.
  - apply (proj2 (filteredDishes_leaves_out_avoid st) eq_refl
             InMemory.salmon_plate).
    split.
    + right. left. reflexivity.
    + eexists. split; [vm_compute; reflexivity|]. left. reflexivity.
Defined.

(** ** The runs of the ingredient loop *)

Section LoopRuns.
Context {RS : Type} `{Supabase RS} {U : Type}.

(** The loop only makes calls: it writes neither to the console nor to the
    React state, and what it does is one of the runs of [loop_run]. *)
Lemma ingredient_loop_run speciesType names : forall v (w : World RS U),
  exists new,
    events (ingredient_loop speciesType names v w).2 = events w ++ new
    /\ console (ingredient_loop speciesType names v w).2 = console w
    /\ ui (ingredient_loop speciesType names v w).2 = ui w
    /\ loop_run speciesType names v new
         (ingredient_loop speciesType names v w).1.
Proof.
  induction names as [|name rest IH]; intros v w; simpl.
  { exists []. rewrite app_nil_r. repeat split. constructor. }
  unfold_monad. next_call; simpl.
  - destruct (toxicForSpecies _ _) as [toxic|] eqn:Etox; simpl.
    { eexists [_]. repeat split. by constructor. }
    destruct (marked_unsafe _ _) eqn:Eflag; simpl.
    { eexists [_]. repeat split. by constructor. }
    next_call; simpl.
    1, 2: match goal with
          | |- context [ingredient_loop _ _ ?v0 ?w0] =>
              destruct (IH v0 w0) as (new & -> & -> & -> & Hrun)
          end;
          eexists (_ :: _ :: new);
          (split; [by simpl; rewrite <- !app_assoc|]);
          repeat split; by constructor.
    eexists [_; _]. split; [by simpl; rewrite <- !app_assoc|].
    repeat split. by constructor.
  - match goal with
    | |- context [ingredient_loop _ _ ?v0 ?w0] =>
        destruct (IH v0 w0) as (new & -> & -> & -> & Hrun)
    end.
    eexists (_ :: new). split; [by simpl; rewrite <- !app_assoc|].
    repeat split. by constructor.
  - eexists [_]. repeat split. constructor.
Qed.
End LoopRuns.

(** A run of the loop that throws ends with the call that threw, and no
    other call of the run threw; a run that returns had no call throw. *)
Lemma loop_run_failures speciesType names v tr r :
  loop_run speciesType names v tr r ->
  match r with
  | Returned _ => failures tr = []
  | Thrown e => last_call_threw tr e
  end.
Proof.
  induction 1; simpl; try done.
  - by exists [], (EvIngredient name None (Thrown e)).
  - destruct r; [done|].
    destruct IHloop_run as (pre & ev & -> & Hev & Hpre).
    by exists (EvIngredient name None (Returned None) :: pre), ev.
  - by exists [EvIngredient name None (Returned (Some ingredient))],
              (EvContraindication (ingredient_id ingredient) speciesType
                 (Thrown e)).
  - destruct r; [done|].
    destruct IHloop_run as (pre & ev & -> & Hev & Hpre).
    by exists (EvIngredient name None (Returned (Some ingredient))
               :: EvContraindication (ingredient_id ingredient) speciesType
                    (Returned c) :: pre), ev.
Qed.

(** The loop asks for the dish's ingredients one name at a time, in order,
    as far as it goes, and makes no other kind of call. *)
Lemma loop_run_in_order speciesType names v tr r :
  loop_run speciesType names v tr r ->
  forallb ingredient_call tr = true
  /\ ingredient_queries tr `prefix_of` names.
Proof.
  induction 1; simpl; try (split; [done|]).
  - apply prefix_nil.
  - apply prefix_cons, prefix_nil.
  - destruct IHloop_run as [? ?]. split; [done|]. by apply prefix_cons.
  - apply prefix_cons, prefix_nil.
  - apply prefix_cons, prefix_nil.
  - apply prefix_cons, prefix_nil.
  - destruct IHloop_run as [? ?]. split; [done|]. by apply prefix_cons.
Qed.

(** ** Errors of remote calls *)

Lemma last_call_threw_cons ev tr e :
  failure ev = None -> last_call_threw tr e -> last_call_threw (ev :: tr) e.
Proof.
  intros Hev (pre & ev' & -> & Hev' & Hpre).
  exists (ev :: pre), ev'. repeat split; [done|].
  unfold failures in *. simpl. by rewrite Hev.
Qed.

(** Splits a sequence of calls that is written out at its last call. *)
Ltac at_last_call :=
  match goal with
  | |- last_call_threw ?tr _ =>
      exists (removelast tr), (List.last tr (EvGetUser (Returned None)));
      simpl; repeat split; reflexivity
  end.

Section Errors.
Context {RS : Type} `{Supabase RS}.

Lemma try_catch_returns {U A} (p : M RS U A) h w :
  (forall e w', returns (h e) w') -> returns (try_catch p h) w.
Proof.
  intros Hh. unfold returns, try_catch.
  destruct (p w) as [[a|e] w']; [by eexists _, _|]. apply Hh.
Qed.

Lemma logging_returns {U A} msg (a : A) e (w : World RS U) :
  returns (bind (console_error msg e) (fun _ => ret a)) w.
Proof. by eexists _, _. Qed.

Lemma console_error_returns {U} msg e (w : World RS U) :
  returns (console_error msg e) w.
Proof. by eexists _, _. Qed.

Lemma handleLookup_returns searchQuery w :
  returns (handleLookup searchQuery) w.
Proof.
  unfold returns, handleLookup.
  destruct (truthy (trim searchQuery)); simpl; [|by eexists _, _].
  run_lookup; by eexists _, _.
Qed.

Lemma calculateDishRisk_failure {U} dish userId (s : RS) (u : U) :
  failures (events (calculateDishRisk dish userId (start s u)).2) <> [] ->
  (calculateDishRisk dish userId (start s u)).1
  = Returned (unable_to_assess dish)
  /\ exists e,
       last_call_threw
         (events (calculateDishRisk dish userId (start s u)).2) e
       /\ console (calculateDishRisk dish userId (start s u)).2
          = [("Error calculating risk:", e)].
Proof.
  unfold calculateDishRisk. unfold_monad. next_call; simpl.
  2: { intros _. split; [done|]. exists e. split; [at_last_call|done]. }
  match goal with
  | |- context [ingredient_loop ?sp ?names ?v0 ?w0] =>
      destruct (ingredient_loop_run sp names v0 w0)
        as (new & Hev & Hcon & _ & Hrun);
      apply loop_run_failures in Hrun;
      destruct (ingredient_loop sp names v0 w0) as [[v'|e] w']
  end; simpl in *; rewrite Hev, ?Hcon; simpl.
  - unfold failures in *. simpl. by rewrite Hrun.
  - intros _. split; [done|]. exists e. split; [|done].
    by apply last_call_threw_cons.
Qed.

Lemma handleLookup_failure searchQuery (s : RS) u :
  failures (events (handleLookup searchQuery (start s u)).2) <> [] ->
  loading (ui (handleLookup searchQuery (start s u)).2) = false
  /\ (exists e,
        last_call_threw
          (events (handleLookup searchQuery (start s u)).2) e
        /\ console (handleLookup searchQuery (start s u)).2
           = [("Error looking up food:", e)])
  /\ (result (ui (handleLookup searchQuery (start s u)).2) = None
      <-> classified (events (handleLookup searchQuery (start s u)).2)
          = false).
Proof.
  unfold handleLookup.
  destruct (truthy (trim searchQuery)); simpl; [|done].
  run_lookup; try done; intros _;
    (split; [reflexivity|]);
    (split; [eexists; split; [at_last_call|reflexivity]|]);
    split; done.
Qed.
End Errors.

Section Caught.
Context {RS : Type} `{Supabase RS} {U : Type}.

(** What the [catch] blocks do with a rejected [await].  Every handler
    returns whatever the remote does: what a call throws is taken by the
    [catch] of the handler that made the call.  When a call of [calculateDishRisk] throws, the call is
    the last one made and the only one that threw, the error is logged
    once, and the assessment returned is 'neutral' with score 50 and no
    contraindications.  When a call of [handleLookup] throws, the same
    holds of the calls and the log, the loading flag ends cleared, and
    no result is stored exactly when the call that threw is one of the
    classification queries; when the later user query or the insert into
    the lookup history throws, the result already stored stays. *)
Theorem remote_errors_are_caught :
  (forall searchQuery w, returns (handleLookup searchQuery) w)
  /\ (forall w, returns loadRecentLookups w)
  /\ (forall dish userId (w : World RS U),
        returns (calculateDishRisk dish userId) w)
  /\ (forall dishList w, returns (assessDishRisks dishList) w)
  /\ (forall restaurantId w, returns (loadDishes restaurantId) w)
  /\ (forall dish userId (s : RS) (u : U),
        failures (events (calculateDishRisk dish userId (start s u)).2)
        <> [] ->
        exists a e,
          (calculateDishRisk dish userId (start s u)).1 = Returned a
          /\ risk_classification a = risk_neutral
          /\ risk_score a = 50
          /\ contraindications a = []
          /\ last_call_threw
               (events (calculateDishRisk dish userId (start s u)).2) e
          /\ console (calculateDishRisk dish userId (start s u)).2
             = [("Error calculating risk:", e)])
  /\ (forall searchQuery (s : RS) u,
        failures (events (handleLookup searchQuery (start s u)).2) <> [] ->
        loading (ui (handleLookup searchQuery (start s u)).2) = false
        /\ (exists e,
              last_call_threw
                (events (handleLookup searchQuery (start s u)).2) e
              /\ console (handleLookup searchQuery (start s u)).2
                 = [("Error looking up food:", e)])
        /\ (result (ui (handleLookup searchQuery (start s u)).2) = None
            <-> classified
                  (events (handleLookup searchQuery (start s u)).2)
                = false)).
Proof.
  split; [apply handleLookup_returns|].
  split; [intros; apply try_catch_returns; intros;
          apply console_error_returns|].
  split; [apply calculateDishRisk_returns|].
  split; [intros; apply try_catch_returns; intros;
          apply console_error_returns|].
  split; [intros; apply try_catch_returns; intros;
          apply console_error_returns|].
  split; [|apply handleLookup_failure].
  intros dish userId s u Hfail.
  destruct (calculateDishRisk_failure dish userId s u Hfail)
    as (Hr & e & Hlast & Hcon).
  exists (unable_to_assess dish), e. by repeat split.
Qed.
End Caught.

Lemma remote_errors_are_caught_witness :
  (exists a e,
     (calculateDishRisk (H := InMemory.supabase) InMemory.salmon_plate
        "user-1" (start (InMemory.seeded (Some 2%nat)) InMemory.menu)).1
     = Returned a
     /\ risk_classification a = risk_neutral
     /\ risk_score a = 50
     /\ contraindications a = []
     /\ last_call_threw
          (events (calculateDishRisk (H := InMemory.supabase)
                     InMemory.salmon_plate "user-1"
                     (start (InMemory.seeded (Some 2%nat)) InMemory.menu)).2) e
     /\ console (calculateDishRisk (H := InMemory.supabase)
                   InMemory.salmon_plate "user-1"
                   (start (InMemory.seeded (Some 2%nat)) InMemory.menu)).2
        = [("Error calculating risk:", e)])
  /\ loading (ui (handleLookup (H := InMemory.supabase) "salmon"
                    (start (InMemory.seeded (Some 1%nat)) InMemory.idle)).2)
     = false.
Proof.
  pose proof (remote_errors_are_caught (H := InMemory.supabase)
                (U := RestaurantBrowserState))
    as (_ & _ & _ & _ & _ & Hdish & Hlookup).
  split.
  - apply Hdish. vm_compute. discriminate.
  - apply Hlookup. vm_compute. discriminate.
Defined.

(** The insert into the lookup history is rejected: the handler has failed,
    the error is logged, and the result computed before is stored
    nonetheless. *)
Lemma handleLookup_failure_after_result :
  let w' :=
    (handleLookup (H := InMemory.supabase) "tofu"
       (start (InMemory.seeded (Some 2%nat)) InMemory.idle)).2 in
  failures (events w') = ["TypeError: Failed to fetch"]
  /\ console w' = [("Error looking up food:", "TypeError: Failed to fetch")]
  /\ loading (ui w') = false
  /\ result (ui w')
     = Some {| food_name := "tofu"; safety_classification := caution;
               rationale := not_in_database; ingredients_identified := [] |}.
Proof. vm_compute. repeat split. Qed.

(** The components see the reporting client as the remote itself wherever
    a call is answered; a call that fails comes back to [calculateDishRisk]
    and [handleLookup] as [data: null], to the upsert of [assessDishRisks]
    and to [loadDishes] as the error. *)
Lemma reporting_destructured {RS} (base : Supabase RS) (s : RS) :
  let seen := as_destructured (reporting base) in
  let nulled {A} (r : completion (option A) * RS) :=
    match r with
    | (Thrown _, s') => (Returned None, s')
    | _ => r
    end in
  (forall pattern limit,
     ingredients_ilike (Supabase := seen) pattern limit s
     = nulled (ingredients_ilike (Supabase := base) pattern limit s))
  /\ auth_getUser (Supabase := seen) s
     = nulled (auth_getUser (Supabase := base) s)
  /\ (forall id,
       profiles_by_id (Supabase := seen) id s
       = nulled (profiles_by_id (Supabase := base) id s))
  /\ (forall i sp,
       contraindications_for (Supabase := seen) i sp s
       = nulled (contraindications_for (Supabase := base) i sp s))
  /\ (forall i sp,
       contraindication_for (Supabase := seen) i sp s
       = nulled (contraindication_for (Supabase := base) i sp s))
  /\ lookup_history_recent (Supabase := seen) s
     = nulled (lookup_history_recent (Supabase := base) s)
  /\ (forall profile row,
       lookup_history_insert (Supabase := seen) profile row s
       = match lookup_history_insert (Supabase := base) profile row s with
         | (_, s') => (Returned tt, s')
         end)
  /\ (forall profile a,
       dish_risk_upsert (Supabase := seen) profile a s
       = match dish_risk_upsert (Supabase := base) profile a s with
         | (Thrown e, s') => (Returned (Some e), s')
         | r => r
         end)
  /\ (forall restaurant,
       dishes_of_restaurant (Supabase := seen) restaurant s
       = match dishes_of_restaurant (Supabase := base) restaurant s with
         | (Thrown e, s') => (Returned (None, Some e), s')
         | r => r
         end).
Proof.
  cbn [as_destructured reporting ingredients_ilike auth_getUser profiles_by_id
       contraindications_for contraindication_for lookup_history_recent
       lookup_history_insert dish_risk_upsert dishes_of_restaurant
       client_ingredients client_getUser client_profile
       client_contraindications client_contraindication
       client_insert_lookup client_recent_lookups client_upsert_assessment
       client_dishes].
  unfold keep, report.
  repeat split; intros;
    repeat match goal with
    | |- context [match ?c with _ => _ end] =>
        lazymatch c with
        | context [match _ with _ => _ end] => fail
        | _ => destruct c as [[[] | ] ?] eqn:?
        end
    end; try reflexivity.
Qed.

(** C5, at an input where the code departs from it.  Every error of a
    remote call should be caught and logged, a failed call of
    [calculateDishRisk] giving 'neutral' with 50 and a failed [handleLookup]
    storing no result.  Here the client reports the failed request in the
    [error] field of its reply, as it does for a request it cannot make, and
    the call sites of the two functions keep only [data].  The query for
    "Salmon" fails: [calculateDishRisk] takes the ingredient as not found
    and returns 'safe' with 20, where the same dish is 'caution' with 60
    when the query is answered, and logs nothing.  The ingredient query of a
    lookup fails: [handleLookup] stores 'caution' as for a food that is not
    in the database, and logs nothing.  [loadDishes], which reads [error] and
    throws it, logs the same failure. *)
Theorem reported_errors_are_dropped :
  let dish_run outage :=
    calculateDishRisk (H := Reporting.supabase) InMemory.salmon_plate
      "user-1" (start (InMemory.seeded outage) InMemory.menu) in
  let lookup_run :=
    handleLookup (H := Reporting.supabase) "salmon"
      (start (InMemory.seeded (Some 0%nat)) InMemory.idle) in
  let dishes_run :=
    loadDishes (H := Reporting.supabase) "r-1"
      (start (InMemory.seeded (Some 0%nat)) InMemory.menu) in
  (client_ingredients (PostgrestClient := Reporting.client) "Salmon" None
        (client_profile (PostgrestClient := Reporting.client) "user-1"
           (InMemory.seeded (Some 1%nat))).2).1
     = Returned {| reply_data := None;
                   reply_error := Some "TypeError: Failed to fetch" |}
  /\ option_map (fun a => (risk_classification a, risk_score a))
       (match (dish_run (Some 1%nat)).1 with
        | Returned a => Some a
        | Thrown _ => None
        end) = Some (risk_safe, 20)
  /\ events (dish_run (Some 1%nat)).2 !! 1%nat
     = Some (EvIngredient "Salmon" None (Returned None))
  /\ console (dish_run (Some 1%nat)).2 = []
  /\ failures (events (dish_run (Some 1%nat)).2) = []
  /\ option_map (fun a => (risk_classification a, risk_score a))
       (match (dish_run None).1 with
        | Returned a => Some a
        | Thrown _ => None
        end) = Some (risk_caution, 60)
  /\ result (ui lookup_run.2)
     = Some {| food_name := "salmon"; safety_classification := caution;
               rationale := not_in_database; ingredients_identified := [] |}
  /\ console lookup_run.2 = []
  /\ console dishes_run.2
     = [("Error loading dishes:", "TypeError: Failed to fetch")].
Proof. vm_compute. repeat split. Qed.

(** ** First match and last write *)

(** In [handleLookup] the contraindication step writes 'caution' whenever a
    row of type 'avoid', 'caution' or 'limit' came back, whatever the
    earlier steps had decided. *)
Lemma filter_nonempty {A} (f : A -> bool) (l : list A) x :
  In x l -> f x = true -> (0 <? length (List.filter f l))%nat = true.
Proof.
  intros Hin Hx.
  assert (In x (List.filter f l)) as Hin' by (by apply filter_In).
  by destruct (List.filter f l).
Qed.

Lemma lookup_contraindications_last_write ingredient rows v :
  existsb (fun c => type_is "avoid" c || type_is "caution" c
                    || type_is "limit" c) rows = true ->
  fst (lookup_contraindications ingredient (Some rows) v) = caution.
Proof.
  intros (c & Hc & Htype)%existsb_exists.
  unfold lookup_contraindications.
  assert ((0 <? length rows)%nat = true) as ->
    by (destruct rows; [destruct Hc|done]).
  destruct (0 <? length (List.filter (type_is "avoid") rows))%nat eqn:Eavoid;
    [done|].
  rewrite <- orb_assoc in Htype. apply orb_true_iff in Htype as [Havoid|Hrest].
  - by rewrite (filter_nonempty _ _ _ Hc Havoid) in Eavoid.
  - by rewrite (filter_nonempty _ _ _ Hc Hrest).
Qed.

(** In [calculateDishRisk] the toxicity step ends the loop: a toxic
    ingredient is where the run stops, with 'avoid' and 95. *)
Lemma loop_run_toxic_stops speciesType name rest v ingredient toxic tr r :
  toxicForSpecies (toxicity_warnings ingredient) speciesType = Some toxic ->
  loop_run speciesType (name :: rest) v
    (EvIngredient name None (Returned (Some ingredient)) :: tr) r ->
  tr = [] /\ r = Returned (dish_toxic ingredient speciesType toxic v).
Proof.
  intros Htoxic Hrun. inversion Hrun; subst; try congruence.
  split; [done|]. congruence.
Qed.

Lemma dish_contraindication_not_avoid ingredient c v :
  riskClassification v <> risk_avoid ->
  riskClassification (dish_contraindication ingredient c v) <> risk_avoid.
Proof.
  unfold dish_contraindication. destruct c as [c|]; [|done].
  destruct (type_is "avoid" c); [done|].
  destruct (type_is "limit" c); [|done].
  destruct (riskClassification v) eqn:Ev; simpl; rewrite ?Ev; congruence.
Qed.

(** First match wins in [calculateDishRisk]: the loop returns 'avoid'
    exactly when the toxicity check or the species flag matched at some
    ingredient, and then that ingredient is the last one asked for; no
    contraindication is read after it. *)
Lemma loop_run_first_match speciesType names v tr v' :
  loop_run speciesType names v tr (Returned v') ->
  riskClassification v <> risk_avoid ->
  (riskClassification v' = risk_avoid
   <-> existsb (stops_loop speciesType) tr = true)
  /\ (riskClassification v' = risk_avoid ->
      exists pre ev,
        tr = pre ++ [ev] /\ stops_loop speciesType ev = true
        /\ existsb (stops_loop speciesType) pre = false).
Proof.
  remember (Returned v') as r eqn:Er. intros Hrun. revert v' Er.
  induction Hrun; intros v' Er Hv; try done.
  - injection Er as <-. split; [done|]. by intros ?.
  - destruct (IHHrun v' Er Hv) as [Hiff Hlast]. split; [done|].
    intros Havoid. destruct (Hlast Havoid) as (pre & ev & -> & Hev & Hpre).
    by exists (EvIngredient name None (Returned None) :: pre), ev.
  - injection Er as <-. simpl. unfold harmless. rewrite H. split; [done|].
    intros _. eexists [], _. repeat split. simpl. unfold harmless.
    by rewrite H.
  - injection Er as <-. simpl. unfold harmless. rewrite H, H0.
    split; [done|]. intros _. eexists [], _. repeat split. simpl.
    unfold harmless. by rewrite H, H0.
  - destruct (IHHrun v' Er (dish_contraindication_not_avoid _ _ _ Hv))
      as [Hiff Hlast].
    assert (harmless ingredient speciesType = true) as Hharmless
      by (unfold harmless; by rewrite H, H0).
    split; [simpl; by rewrite Hharmless|].
    intros Havoid. destruct (Hlast Havoid) as (pre & ev & -> & Hev & Hpre).
    exists (EvIngredient name None (Returned (Some ingredient))
            :: EvContraindication (ingredient_id ingredient) speciesType
                 (Returned c) :: pre), ev.
    repeat split; [done|]. simpl. by rewrite Hharmless.
Qed.

(** C1, at an input where the code departs from it.  "Bitter Almond" carries
    a toxicity warning that lists humans, and one contraindication row of
    type 'avoid' for humans.  The toxicity step of [handleLookup] assigns
    'avoid'; the contraindication step, which comes later, replaces it by
    'caution', and that is what the handler stores.  [calculateDishRisk] on
    a dish with this one ingredient stops at the toxicity step and returns
    'avoid'. *)
Theorem handleLookup_caution_replaces_avoid :
  let default :=
    (safe, "This food appears to be generally safe for consumption.") in
  let after_toxicity :=
    lookup_species_flag InMemory.bitter_almond "human"
      (lookup_toxicity InMemory.bitter_almond "human" default) in
  fst after_toxicity = avoid
  /\ fst (lookup_contraindications InMemory.bitter_almond
            (Some [InMemory.pregnancy_almond]) after_toxicity) = caution
  /\ option_map safety_classification
       (result (ui (handleLookup (H := InMemory.supabase) "bitter almond"
                      (start (InMemory.seeded None) InMemory.idle)).2))
     = Some caution
  /\ (calculateDishRisk (H := InMemory.supabase) InMemory.almond_cake "user-1"
        (start (InMemory.seeded None) InMemory.menu)).1
     = Returned
         {| assessment_dish_id := "dish-3";
            risk_classification := risk_avoid;
            risk_score := 95;
            risk_rationale :=
              "DANGER: Bitter Almond is toxic to humans. cyanide_poisoning";
            contraindications :=
              [{| note_ingredient := "Bitter Almond";
                  note_reason := Some "toxic";
                  note_severity := "critical" |}];
            recommended_substitutions := [] |}.
Proof. vm_compute. repeat split. Qed.

(** ** What a later run takes from an earlier one *)

Section Oblivious.
Context {RS : Type} `{Supabase RS} {U : Type}.

Lemma oblivious_ret {A} (a : A) : oblivious (U := U) (RS := RS) (ret a).
Proof. done. Qed.

Lemma oblivious_await {A} (call : RS -> completion A * RS) ev :
  oblivious (U := U) (await call ev).
Proof.
  intros w u. unfold await. simpl. by destruct (call (remote w)).
Qed.

Lemma oblivious_console_error msg e :
  oblivious (U := U) (RS := RS) (console_error msg e).
Proof. done. Qed.

Lemma oblivious_bind {A B} (m : M RS U A) (k : A -> M RS U B) :
  oblivious m -> (forall a, oblivious (k a)) -> oblivious (bind m k).
Proof.
  intros Hm Hk w u. unfold bind. rewrite Hm.
  destruct (m w) as [[a|e] w']; simpl; [apply Hk|done].
Qed.

Lemma oblivious_try_catch {A} (p : M RS U A) h :
  oblivious p -> (forall e, oblivious (h e)) -> oblivious (try_catch p h).
Proof.
  intros Hp Hh w u. unfold try_catch. rewrite Hp.
  destruct (p w) as [[a|e] w']; simpl; [done|apply Hh].
Qed.

Lemma oblivious_keeps_ui {A} (p : M RS U A) w :
  oblivious p -> ui (p w).2 = ui w.
Proof.
  intros Hp. specialize (Hp w (ui w)).
  replace (with_ui (ui w) w) with w in Hp by (by destruct w).
  apply (f_equal (fun rw => ui rw.2)) in Hp. exact Hp.
Qed.

Lemma oblivious_ingredient_loop speciesType names :
  forall v, oblivious (U := U) (ingredient_loop speciesType names v).
Proof.
  induction names as [|name rest IH]; intros v; simpl.
  { apply oblivious_ret. }
  apply oblivious_bind; [apply oblivious_await|].
  intros [ingredient|]; [|apply IH].
  destruct (toxicForSpecies _ _); [apply oblivious_ret|].
  destruct (marked_unsafe _ _); [apply oblivious_ret|].
  apply oblivious_bind; [apply oblivious_await|]. intros c. apply IH.
Qed.

Lemma oblivious_calculateDishRisk dish userId :
  oblivious (U := U) (calculateDishRisk dish userId).
Proof.
  apply oblivious_try_catch.
  - apply oblivious_bind; [apply oblivious_await|]. intros profile.
    apply oblivious_bind; [apply oblivious_ingredient_loop|]. intros v.
    apply oblivious_ret.
  - intros e. apply oblivious_bind; [apply oblivious_console_error|].
    intros _. apply oblivious_ret.
Qed.

Lemma oblivious_dish_loop userId dishList :
  forall assessmentMap,
    oblivious (U := U) (dish_loop userId dishList assessmentMap).
Proof.
  induction dishList as [|dish rest IH]; intros assessmentMap; simpl.
  { apply oblivious_ret. }
  apply oblivious_bind; [apply oblivious_calculateDishRisk|].
  intros assessment.
  apply oblivious_bind; [apply oblivious_await|]. intros error.
  apply oblivious_bind; [|intros _; apply IH].
  destruct error; [apply oblivious_console_error|apply oblivious_ret].
Qed.
End Oblivious.

Section Reuse.
Context {RS : Type} `{Supabase RS}.

(** C9. A run of [assessDishRisks] or of [handleLookup] takes nothing
    from what an earlier run stored in the React state: started with the
    same remote from two different stored states, it makes the same
    calls, gets the same answers and ends the same way, and the state it
    leaves is the one it found with the assessments (for a lookup: the
    loading flag and the result) replaced by what this run computed, or
    the one it found, untouched. *)
Theorem stored_results_are_not_reused :
  (forall dishList (s : RS) u1 u2,
     let run1 := assessDishRisks dishList (start s u1) in
     let run2 := assessDishRisks dishList (start s u2) in
     run1.1 = run2.1
     /\ events run1.2 = events run2.2
     /\ remote run1.2 = remote run2.2
     /\ console run1.2 = console run2.2
     /\ exists computed : option (gmap string DishRiskAssessment),
          ui run1.2
          = from_option (fun m => setRiskAssessments m u1) u1 computed
          /\ ui run2.2
             = from_option (fun m => setRiskAssessments m u2) u2 computed)
  /\ (forall searchQuery (s : RS) u1 u2,
        let run1 := handleLookup searchQuery (start s u1) in
        let run2 := handleLookup searchQuery (start s u2) in
        run1.1 = run2.1
        /\ events run1.2 = events run2.2
        /\ remote run1.2 = remote run2.2
        /\ console run1.2 = console run2.2
        /\ exists computed : option (bool * option LookupResult),
             ui run1.2
             = from_option
                 (fun c => setLoading c.1 (setResult c.2 u1)) u1 computed
             /\ ui run2.2
                = from_option
                    (fun c => setLoading c.1 (setResult c.2 u2)) u2
                    computed).
Proof.
  split.
  - intros dishList s u1 u2. cbv zeta.
    unfold assessDishRisks. unfold_monad. simpl. next_call; simpl.
    + pose proof (oblivious_dish_loop (user_id user) dishList ∅
                    (@mkWorld RS RestaurantBrowserState s0
                       [EvGetUser (Returned (Some user))] [] u1) u2)
        as Hobl.
      unfold with_ui in Hobl. simpl in Hobl. rewrite Hobl. clear Hobl.
      pose proof (oblivious_keeps_ui _
                    (@mkWorld RS RestaurantBrowserState s0
                       [EvGetUser (Returned (Some user))] [] u1)
                    (oblivious_dish_loop (user_id user) dishList ∅))
        as Hui.
      match goal with
      | |- context [dish_loop ?i ?l ?m ?w] =>
          destruct (dish_loop i l m w) as [[m'|e] w']
      end; simpl in *.
      * repeat split. exists (Some m'). by rewrite Hui.
      * repeat split. exists None. by rewrite Hui.
    + repeat split. by exists None.
    + repeat split. by exists None.
  - intros searchQuery s u1 u2. cbv zeta. unfold handleLookup.
    destruct (truthy (trim searchQuery)); simpl.
    2: { repeat split. by exists None. }
    run_lookup; repeat split; by eexists (Some (_, _)).
Qed.
End Reuse.

(** ** The order of the calls *)

(** A run of the loop that returns without 'avoid' took no [break]: it asked
    for every ingredient. *)
Lemma loop_run_complete speciesType names v tr v' :
  loop_run speciesType names v tr (Returned v') ->
  riskClassification v' <> risk_avoid ->
  ingredient_queries tr = names.
Proof.
  remember (Returned v') as r eqn:Er. intros Hrun. revert Er.
  induction Hrun; intros Er Hclass; simpl; try done.
  - by rewrite IHHrun.
  - injection Er as <-. done.
  - injection Er as <-. done.
  - by rewrite IHHrun.
Qed.

Lemma last_call_threw_failures tr e :
  last_call_threw tr e -> failures tr = [e].
Proof.
  intros (pre & ev & -> & Hev & Hpre). unfold failures in *.
  rewrite omap_app, Hpre. simpl. by rewrite Hev.
Qed.

Lemma failures_app tr1 tr2 :
  failures (tr1 ++ tr2) = failures tr1 ++ failures tr2.
Proof. apply omap_app. Qed.

Lemma dish_default_avoid v :
  riskClassification (dish_default v) <> risk_avoid ->
  riskClassification v <> risk_avoid.
Proof.
  unfold dish_default. intros Hd Hv. rewrite Hv in Hd. done.
Qed.

Section Order.
Context {RS : Type} `{Supabase RS} {U : Type}.

Lemma calculateDishRisk_calls dish userId (w : World RS U) :
  exists a w' profile calls,
    calculateDishRisk dish userId w = (Returned a, w')
    /\ assessment_dish_id a = dish_id dish
    /\ events w' = events w ++ EvProfile userId profile :: calls
    /\ forallb ingredient_call calls = true
    /\ ingredient_queries calls `prefix_of` ingredients dish
    /\ (failures (EvProfile userId profile :: calls) = [] ->
        risk_classification a <> risk_avoid ->
        ingredient_queries calls = ingredients dish).
Proof.
  unfold calculateDishRisk. unfold_monad. next_call; simpl.
  2: { eexists _, _, (Thrown e), []. repeat split; try done.
       apply prefix_nil. }
  match goal with
  | |- context [ingredient_loop ?sp ?names ?v0 ?w0] =>
      destruct (ingredient_loop_run sp names v0 w0)
        as (new & Hev & _ & _ & Hrun);
      destruct (ingredient_loop sp names v0 w0) as [[v'|e] w']
  end; simpl in *.
  - destruct (loop_run_in_order _ _ _ _ _ Hrun) as [Hcalls Hprefix].
    eexists _, _, (Returned profile), new.
    split; [reflexivity|]. simpl. rewrite Hev, <- app_assoc.
    repeat split; try done.
    intros _ Hclass. eapply loop_run_complete; [exact Hrun|].
    by apply dish_default_avoid.
  - destruct (loop_run_in_order _ _ _ _ _ Hrun) as [Hcalls Hprefix].
    apply loop_run_failures, last_call_threw_failures in Hrun.
    eexists _, _, (Returned profile), new.
    split; [reflexivity|]. simpl. rewrite Hev, <- app_assoc.
    repeat split; try done.
    unfold failures in *. simpl. by rewrite Hrun.
Qed.

Lemma dish_loop_segments userId dishList :
  forall assessmentMap (w : World RS U),
  exists segments,
    events (dish_loop userId dishList assessmentMap w).2
    = events w ++ concat segments
    /\ Forall2 dish_segment (take (length segments) dishList) segments
    /\ (failures (concat segments) = [] ->
        length segments = length dishList).
Proof.
  induction dishList as [|dish rest IH]; intros assessmentMap w; simpl.
  { exists []. rewrite app_nil_r. by repeat split. }
  destruct (calculateDishRisk_calls dish userId w)
    as (a & w1 & profile & calls & Hcalc & Hid & Hev & Hcalls & Hprefix & _).
  unfold bind at 1. rewrite Hcalc. unfold_monad. next_call; simpl.
  1, 2: match goal with
        | |- context [dish_loop _ _ ?m0 ?w0] =>
            destruct (IH m0 w0) as (segments & -> & Hsegs & Hall)
        end;
        eexists ((EvProfile userId profile
                    :: calls ++ [EvUpsertAssessment userId a _])
                 :: segments);
        simpl; rewrite Hev, <- !app_assoc; simpl;
        (split; [reflexivity|]);
        (split; [constructor; [by eexists _, _, _, _, _, _|done]|]);
        intros Hnone; f_equal; apply Hall;
        (destruct (thrown profile); [done|]);
        rewrite failures_app in Hnone;
        by apply app_eq_nil in Hnone as [_ Hnone].
  eexists [EvProfile userId profile
             :: calls ++ [EvUpsertAssessment userId a (Thrown e)]].
  simpl. rewrite Hev, <- !app_assoc, app_nil_r. simpl.
  split; [done|].
  split; [constructor; [by eexists _, _, _, _, _, _|done]|].
  intros Hnone. exfalso.
  destruct (thrown profile); [done|].
  rewrite failures_app in Hnone.
  by apply app_eq_nil in Hnone as [_ Hnone].
Qed.
End Order.

Section Sequential.
Context {RS : Type} `{Supabase RS} {U : Type}.

(** C10. The handlers make their remote calls one after the other, each
    call answered before the next is made.  [calculateDishRisk] reads the
    profile and then asks for the ingredients of the dish one name at a
    time in the order of the dish's list, as far as the loop goes, and
    for all of them when no call throws and no ingredient ends the loop
    with 'avoid'.  [assessDishRisks] reads the user and then handles the
    dishes one at a time in the order of the list: the calls of one dish,
    ended by the upsert of its assessment, come before the calls of the
    next; all the dishes are handled when the user is there and no call
    throws. *)
Theorem calls_follow_the_lists :
  (forall dish userId (s : RS) (u : U),
     exists a profile calls,
       (calculateDishRisk dish userId (start s u)).1 = Returned a
       /\ events (calculateDishRisk dish userId (start s u)).2
          = EvProfile userId profile :: calls
       /\ forallb ingredient_call calls = true
       /\ ingredient_queries calls `prefix_of` ingredients dish
       /\ (failures (events (calculateDishRisk dish userId (start s u)).2)
           = [] ->
           risk_classification a <> risk_avoid ->
           ingredient_queries calls = ingredients dish))
  /\ (forall dishList (s : RS) u,
        exists r segments,
          events (assessDishRisks dishList (start s u)).2
          = EvGetUser r :: concat segments
          /\ Forall2 dish_segment (take (length segments) dishList) segments
          /\ (failures (events (assessDishRisks dishList (start s u)).2)
              = [] ->
              (exists user, r = Returned (Some user)) ->
              length segments = length dishList)).
Proof.
  split.
  - intros dish userId s u.
    destruct (calculateDishRisk_calls dish userId (start s u))
      as (a & w' & profile & calls & -> & _ & Hev & Hcalls & Hprefix & Hall).
    exists a, profile, calls. simpl in *. rewrite Hev. by repeat split.
  - intros dishList s u. unfold assessDishRisks. unfold_monad. simpl.
    next_call; simpl.
    + match goal with
      | |- context [dish_loop ?i ?l ?m0 ?w0] =>
          destruct (dish_loop_segments i l m0 w0)
            as (segments & Hev & Hsegs & Hall);
          destruct (dish_loop i l m0 w0) as [[m'|e] w']
      end; simpl in *; exists (Returned (Some user)), segments;
        rewrite Hev; (split; [done|]); (split; [done|]);
        intros Hnone _; by apply Hall.
    + exists (Returned None), []. repeat split; [constructor|].
      by intros _ [user ?].
    + exists (Thrown e), []. repeat split; [constructor|]. done.
Qed.
End Sequential.

Lemma calls_follow_the_lists_witness :
  (exists a profile calls,
     (calculateDishRisk (H := InMemory.supabase) InMemory.salmon_plate
        "user-1" (start (InMemory.seeded None) InMemory.menu)).1 = Returned a
     /\ events (calculateDishRisk (H := InMemory.supabase)
                  InMemory.salmon_plate "user-1"
                  (start (InMemory.seeded None) InMemory.menu)).2
        = EvProfile "user-1" profile :: calls
     /\ ingredient_queries calls = ["Salmon"; "Quinoa"])
  /\ (exists r segments,
        events (assessDishRisks (H := InMemory.supabase)
                  [InMemory.almond_cake; InMemory.salmon_plate]
                  (start (InMemory.seeded None) InMemory.menu)).2
        = EvGetUser r :: concat segments
        /\ length segments = 2%nat).
Proof.
  pose proof (calls_follow_the_lists (H := InMemory.supabase)
                (U := RestaurantBrowserState)) as [Hdish Hlist].
  split.
  - destruct (Hdish InMemory.salmon_plate "user-1" (InMemory.seeded None)
                InMemory.menu)
      as (a & profile & calls & Ha & Hev & _ & _ & Hall).
    exists a, profile, calls. repeat split; [exact Ha|exact Hev|].
    apply Hall.
    + vm_compute. reflexivity.
    + intros Havoid. clear Hev Hall.
      vm_compute in Ha. injection Ha as <-. discriminate Havoid.
  - destruct (Hlist [InMemory.almond_cake; InMemory.salmon_plate]
                (InMemory.seeded None) InMemory.menu)
      as (r & segments & Hev & _ & Hall).
    exists r, segments. split; [exact Hev|].
    apply Hall.
    + vm_compute. reflexivity.
    + vm_compute in Hev. injection Hev as <- _. eauto.
Defined.

(** * Further properties of the two components *)

(** ** FoodLookup.tsx *)

Lemma filter_none {A} (f g : A -> bool) (l : list A) :
  existsb g l = false -> (forall x, f x = true -> g x = true) ->
  List.filter f l = [].
Proof.
  intros Hnone Hfg. induction l as [|x l IH]; simpl in *; [done|].
  apply orb_false_iff in Hnone as [Hx Hl].
  destruct (f x) eqn:Efx; [|by apply IH].
  apply Hfg in Efx. congruence.
Qed.

Lemma lookup_contraindications_none ingredient rows v :
  contraindicated rows = false ->
  lookup_contraindications ingredient rows v = v.
Proof.
  unfold contraindicated, lookup_contraindications.
  destruct rows as [rows|]; [|done]. intros Hnone.
  rewrite (filter_none (type_is "avoid") _ rows Hnone).
  2: { intros c ->. done. }
  rewrite (filter_none (fun c => type_is "caution" c || type_is "limit" c)
             _ rows Hnone).
  2: { intros c Hc. rewrite <- orb_assoc, Hc. apply orb_true_r. }
  simpl. by destruct (0 <? length rows)%nat.
Qed.

Lemma harmful_lookup ingredient speciesType text :
  harmless ingredient speciesType = false ->
  fst (lookup_species_flag ingredient speciesType
         (lookup_toxicity ingredient speciesType (safe, text))) = avoid.
Proof.
  unfold harmless, lookup_species_flag, lookup_toxicity.
  destruct (toxicForSpecies _ _); [done|]. simpl.
  by destruct (marked_unsafe _ _).
Qed.

Lemma lookup_steps_table ingredient speciesType rows text :
  fst (lookup_contraindications ingredient rows
         (lookup_species_flag ingredient speciesType
            (lookup_toxicity ingredient speciesType (safe, text))))
  = lookup_table ingredient speciesType rows.
Proof.
  unfold lookup_table.
  destruct (contraindicated rows) eqn:Erows.
  - destruct rows as [rows|]; [|done].
    by apply lookup_contraindications_last_write.
  - rewrite lookup_contraindications_none by done.
    destruct (harmless ingredient speciesType) eqn:Eh.
    + by rewrite harmless_lookup.
    + by apply harmful_lookup.
Qed.

Section LookupMore.
Context {RS : Type} `{Supabase RS}.

(** X1. A query that is blank once trimmed does nothing: no call, no log,
    the state as it was; any other query asks the remote at least once and
    ends with the loading flag cleared. *)
Theorem handleLookup_blank_query searchQuery (s : RS) u :
  (truthy (trim searchQuery) = false ->
   handleLookup searchQuery (start s u) = (Returned false, start s u))
  /\ (truthy (trim searchQuery) = true ->
      events (handleLookup searchQuery (start s u)).2 <> []
      /\ loading (ui (handleLookup searchQuery (start s u)).2) = false).
Proof.
  unfold handleLookup. split; intros ->; simpl; [done|].
  run_lookup; by split.
Qed.

(** X2. When the ingredient is found but nobody is signed in, the lookup
    stores 'safe' with the general rationale and the name of the row found,
    whatever the row says about toxicity or species: no profile and no
    contraindication is read. *)
Theorem handleLookup_signed_out searchQuery (s : RS) u pattern limit row rest :
  events (handleLookup searchQuery (start s u)).2
  = EvIngredient pattern limit (Returned (Some row))
    :: EvGetUser (Returned None) :: rest ->
  result (ui (handleLookup searchQuery (start s u)).2)
  = Some {| food_name := searchQuery;
            safety_classification := safe;
            rationale :=
              "This food appears to be generally safe for consumption.";
            ingredients_identified := [ingredient_name row] |}
  /\ Forall (fun e => match e with
                      | EvGetUser _ | EvInsertLookup _ _ _ => True
                      | _ => False
                      end) rest.
Proof.
  unfold handleLookup.
  destruct (truthy (trim searchQuery)); simpl; [|done].
  run_lookup; try done; intros [= <- <- <- <-]; split; try done;
    repeat constructor.
Qed.

(** X3. For a row found by a signed-in user, the classification stored is
    read off the answers as a table: 'caution' when a contraindication row
    of type 'avoid', 'caution' or 'limit' came back; otherwise 'avoid' when
    a toxicity warning lists the species or the species flag is false;
    otherwise 'safe'. *)
Theorem handleLookup_table searchQuery (s : RS) u
    pattern limit row user id profile ingredient speciesType rows rest :
  events (handleLookup searchQuery (start s u)).2
  = EvIngredient pattern limit (Returned (Some row))
    :: EvGetUser (Returned (Some user))
    :: EvProfile id (Returned profile)
    :: EvContraindications ingredient speciesType (Returned rows) :: rest ->
  option_map safety_classification
    (result (ui (handleLookup searchQuery (start s u)).2))
  = Some (lookup_table row (speciesTypeOf profile) rows)
  /\ speciesType = speciesTypeOf profile
  /\ ingredient = ingredient_id row.
Proof.
  unfold handleLookup.
  destruct (truthy (trim searchQuery)); simpl; [|done].
  run_lookup; try done; intros [= <- <- <- <- <- <- <- <- <-]; simpl;
    by rewrite lookup_steps_table.
Qed.

(** X4. What the handler inserts into the lookup history is the result it
    has stored for display, under the searched text. *)
Theorem handleLookup_history_row searchQuery (s : RS) u profile row r :
  In (EvInsertLookup profile row r)
     (events (handleLookup searchQuery (start s u)).2) ->
  result (ui (handleLookup searchQuery (start s u)).2) = Some row
  /\ food_name row = searchQuery.
Proof.
  unfold handleLookup.
  destruct (truthy (trim searchQuery)); simpl; [|done].
  run_lookup; intros Hin;
    repeat (destruct Hin as [Hin|Hin]; [try discriminate|]); try done;
    injection Hin as <- <- <-; done.
Qed.
End LookupMore.

Lemma handleLookup_blank_query_witness :
  handleLookup (H := InMemory.supabase) Examples.blank_query
    (start (InMemory.seeded None) InMemory.idle)
  = (Returned false, start (InMemory.seeded None) InMemory.idle)
  /\ loading (ui (handleLookup (H := InMemory.supabase) "onion"
                    (start (InMemory.seeded None) InMemory.idle)).2) = false.
Proof.
  split.
  - apply (handleLookup_blank_query (H := InMemory.supabase)).
    vm_compute. reflexivity.
  - apply (handleLookup_blank_query (H := InMemory.supabase)).
    vm_compute. reflexivity.
Defined.

Lemma handleLookup_signed_out_witness :
  result (ui (handleLookup (H := InMemory.supabase) "bitter almond"
                (start Examples.signed_out InMemory.idle)).2)
  = Some {| food_name := "bitter almond";
            safety_classification := safe;
            rationale :=
              "This food appears to be generally safe for consumption.";
            ingredients_identified := ["Bitter Almond"] |}.
Proof.
  apply (handleLookup_signed_out (H := InMemory.supabase)
           "bitter almond" Examples.signed_out InMemory.idle
           "%bitter almond%" (Some 1%nat) InMemory.bitter_almond
           [EvGetUser (Returned None)]).
  vm_compute. reflexivity.
Defined.

Lemma handleLookup_table_witness :
  option_map safety_classification
    (result (ui (handleLookup (H := InMemory.supabase) "bitter almond"
                   (start (InMemory.seeded None) InMemory.idle)).2))
  = Some (lookup_table InMemory.bitter_almond "human"
            (Some [InMemory.pregnancy_almond])).
Proof.
  apply (handleLookup_table (H := InMemory.supabase)
           "bitter almond" (InMemory.seeded None) InMemory.idle
           "%bitter almond%" (Some 1%nat) InMemory.bitter_almond
           {| user_id := "user-1" |} "user-1"
           (Some {| species_type := "human" |})
           "ing-bitter-almond" "human" (Some [InMemory.pregnancy_almond])
           (drop 4 (events (handleLookup (H := InMemory.supabase)
                              "bitter almond"
                              (start (InMemory.seeded None)
                                 InMemory.idle)).2))).
  vm_compute. reflexivity.
Defined.

Lemma handleLookup_history_row_witness :
  result (ui (handleLookup (H := InMemory.supabase) "tofu"
                (start (InMemory.seeded None) InMemory.idle)).2)
  = Some {| food_name := "tofu"; safety_classification := caution;
            rationale := not_in_database; ingredients_identified := [] |}
  /\ food_name {| food_name := "tofu"; safety_classification := caution;
                  rationale := not_in_database;
                  ingredients_identified := [] |} = "tofu".
Proof.
  apply (handleLookup_history_row (H := InMemory.supabase) "tofu"
           (InMemory.seeded None) InMemory.idle "user-1" _ (Returned tt)).
  vm_compute. right. right. left. reflexivity.
Defined.

(** ** After the handler: the reload of the recent lookups *)

Section Reload.
Context {RS : Type} `{Supabase RS}.

(** X5. A submission returns whatever the remote does.  The reload of the
    recent lookups that follows the handler leaves the result and the
    loading flag as the handler set them; the list of recent lookups is
    replaced exactly when the reload read the history, by what it read, and
    the history is read only after the insert of the new lookup has
    returned. *)
Theorem onSubmit_reload searchQuery (s : RS) u :
  returns (onSubmit searchQuery) (start s u)
  /\ result (ui (onSubmit searchQuery (start s u)).2)
     = result (ui (handleLookup searchQuery (start s u)).2)
  /\ loading (ui (onSubmit searchQuery (start s u)).2)
     = loading (ui (handleLookup searchQuery (start s u)).2)
  /\ recentLookups (ui (onSubmit searchQuery (start s u)).2)
     = match last (events (onSubmit searchQuery (start s u)).2) with
       | Some (EvRecentLookups (Returned (Some data))) => data
       | _ => recentLookups u
       end
  /\ (forall r,
        In (EvRecentLookups r) (events (onSubmit searchQuery (start s u)).2) ->
        exists profile row,
          In (EvInsertLookup profile row (Returned tt))
             (events (onSubmit searchQuery (start s u)).2)).
Proof.
  unfold onSubmit, handleLookup, loadRecentLookups, returns.
  destruct (truthy (trim searchQuery)); simpl.
  2: { unfold_monad. simpl. split; [by eexists _, _|].
       repeat split; done. }
  run_lookup;
    repeat match goal with
           | data : option (list LookupResult) |- _ => destruct data; simpl
           end;
    (split; [by eexists _, _|]); (split; [done|]); (split; [done|]);
    (split; [done|]);
    intros r' Hin;
    repeat (destruct Hin as [Hin|Hin]; [try discriminate|]); try done;
    eexists _, _; simpl; auto 10.
Qed.
End Reload.

Lemma onSubmit_reload_witness :
  exists profile row,
    In (EvInsertLookup profile row (Returned tt))
       (events (onSubmit (H := InMemory.supabase) "tofu"
                  (start (InMemory.seeded None) InMemory.idle)).2).
Proof.
  apply (proj2 (proj2 (proj2 (proj2
           (onSubmit_reload (H := InMemory.supabase) "tofu"
              (InMemory.seeded None) InMemory.idle))))
           (Returned (Some []))).
  vm_compute. do 4 right. left. reflexivity.
Defined.

(** ** RestaurantBrowser.tsx: the dish rule as a table *)

(** The locals after a run of the loop that returned, read off its calls. *)
Lemma loop_run_table speciesType names v tr v' :
  loop_run speciesType names v tr (Returned v') ->
  riskClassification v <> risk_avoid ->
  (riskClassification v', riskScore v') = loop_table speciesType v tr.
Proof.
  remember (Returned v') as r eqn:Er. intros Hrun. revert v' Er.
  induction Hrun; intros v' Er Hv; try done.
  - by injection Er as <-.
  - rewrite (IHHrun v' Er Hv). done.
  - injection Er as <-. unfold loop_table. simpl. by rewrite H.
  - injection Er as <-. unfold loop_table. simpl. unfold harmless.
    by rewrite H, H0.
  - rewrite (IHHrun v' Er (dish_contraindication_not_avoid _ _ _ Hv)).
    clear IHHrun Hrun Er. unfold loop_table. simpl. unfold harmless.
    rewrite H, H0. simpl.
    destruct (existsb (toxic_at speciesType) tr); [done|].
    destruct (existsb (stops_loop speciesType) tr); [done|].
    unfold dish_contraindication.
    destruct c as [c|]; simpl; [|done].
    destruct (type_is "avoid" c); simpl.
    { destruct (existsb (contraindication_of "avoid") tr);
        [f_equal; lia|].
      by destruct (existsb (contraindication_of "limit") tr). }
    destruct (type_is "limit" c); simpl; [|done].
    destruct (riskClassification v) eqn:Ev; simpl; rewrite ?Ev; try done;
      (destruct (existsb (contraindication_of "avoid") tr);
         [f_equal; lia|]);
      by destruct (existsb (contraindication_of "limit") tr).
Qed.

Lemma dish_default_other v :
  riskClassification v <> risk_neutral -> dish_default v = v.
Proof. unfold dish_default. by destruct (riskClassification v). Qed.

Section DishTable.
Context {RS : Type} `{Supabase RS} {U : Type}.

(** X6. When no call throws, the classification and the score that
    [calculateDishRisk] returns are read off the answers of the remote as a
    table of five rows, first row that applies: a toxicity warning for the
    species at some ingredient, 'avoid' 95; a false species flag, 'avoid'
    90; a contraindication row of type 'avoid', 'caution' 70; one of type
    'limit', 'caution' 60; otherwise 'safe' 20.  A contraindication row of
    type 'caution' changes nothing. *)
Theorem calculateDishRisk_table dish userId (s : RS) (u : U) :
  failures (events (calculateDishRisk dish userId (start s u)).2) = [] ->
  exists a profile calls,
    (calculateDishRisk dish userId (start s u)).1 = Returned a
    /\ events (calculateDishRisk dish userId (start s u)).2
       = EvProfile userId (Returned profile) :: calls
    /\ (risk_classification a, risk_score a)
       = dish_table (speciesTypeOf profile) calls.
Proof.
  unfold calculateDishRisk. unfold_monad. next_call; simpl; [|done].
  match goal with
  | |- context [ingredient_loop ?sp ?names ?v0 ?w0] =>
      destruct (ingredient_loop_run sp names v0 w0)
        as (new & Hev & _ & _ & Hrun);
      pose proof (ingredient_loop_ok sp names v0 w0) as Hok;
      destruct (ingredient_loop sp names v0 w0) as [[v'|e] w']
  end; simpl in *; rewrite Hev; simpl.
  2: { apply loop_run_failures, last_call_threw_failures in Hrun.
       unfold failures in *. simpl. by rewrite Hrun. }
  intros _. eexists _, profile, new. split; [reflexivity|]. split; [done|].
  simpl. apply loop_run_table in Hrun; [|simpl; congruence].
  assert (locals_ok v') as Hv' by (apply Hok; repeat split; done).
  unfold loop_table in Hrun. unfold dish_table. simpl in Hrun.
  destruct (existsb (toxic_at _) new);
    [injection Hrun as Hc Hs;
     rewrite dish_default_other by congruence; by rewrite Hc, Hs|].
  destruct (existsb (stops_loop _) new);
    [injection Hrun as Hc Hs;
     rewrite dish_default_other by congruence; by rewrite Hc, Hs|].
  destruct (existsb (contraindication_of "avoid") new);
    [injection Hrun as Hc Hs;
     rewrite dish_default_other by congruence; by rewrite Hc, Hs|].
  destruct (existsb (contraindication_of "limit") new);
    [injection Hrun as Hc Hs;
     rewrite dish_default_other by congruence; by rewrite Hc, Hs|].
  injection Hrun as Hc Hs. unfold locals_ok in Hv'. rewrite Hc in Hv'.
  destruct Hv' as [_ Hnotes]. unfold dish_default. by rewrite Hc, Hnotes.
Qed.
End DishTable.

Lemma calculateDishRisk_table_witness :
  exists a profile calls,
    (calculateDishRisk (H := InMemory.supabase) InMemory.salmon_plate
       "user-1" (start (InMemory.seeded None) InMemory.menu)).1 = Returned a
    /\ events (calculateDishRisk (H := InMemory.supabase)
                 InMemory.salmon_plate "user-1"
                 (start (InMemory.seeded None) InMemory.menu)).2
       = EvProfile "user-1" (Returned profile) :: calls
    /\ (risk_classification a, risk_score a)
       = dish_table (speciesTypeOf profile) calls.
Proof.
  apply (calculateDishRisk_table (H := InMemory.supabase)).
  vm_compute. reflexivity.
Defined.

(** A run of the loop in which no ingredient is found returns the locals it
    started from, having asked for every ingredient. *)
Lemma loop_run_not_found speciesType names v tr r :
  loop_run speciesType names v tr r ->
  forallb not_found tr = true ->
  r = Returned v /\ ingredient_queries tr = names.
Proof.
  induction 1; simpl; try done.
  intros Hrest. destruct (IHloop_run Hrest) as [-> ->]. done.
Qed.

Section UnknownIngredients.
Context {RS : Type} `{Supabase RS} {U : Type}.

(** X7. A dish none of whose ingredients is found in the [ingredients]
    table, a dish with no ingredient among them, is assessed 'safe' with
    score 20 and no contraindication, after one query for each ingredient
    and no contraindication query. *)
Theorem calculateDishRisk_unknown_ingredients dish userId (s : RS) (u : U)
    profile calls :
  events (calculateDishRisk dish userId (start s u)).2
  = EvProfile userId (Returned profile) :: calls ->
  forallb not_found calls = true ->
  (calculateDishRisk dish userId (start s u)).1
  = Returned
      {| assessment_dish_id := dish_id dish;
         risk_classification := risk_safe;
         risk_score := 20;
         risk_rationale :=
           "This dish appears safe based on your health profile.";
         contraindications := [];
         recommended_substitutions := [] |}
  /\ ingredient_queries calls = ingredients dish.
Proof.
  unfold calculateDishRisk. unfold_monad. next_call; simpl.
  2: { by intros [= <-]. }
  match goal with
  | |- context [ingredient_loop ?sp ?names ?v0 ?w0] =>
      destruct (ingredient_loop_run sp names v0 w0)
        as (new & Hev & _ & _ & Hrun);
      destruct (ingredient_loop sp names v0 w0) as [[v'|e] w']
  end; simpl in *; rewrite Hev; intros [= <- <-] Hnone;
    destruct (loop_run_not_found _ _ _ _ _ Hrun Hnone) as [Hr Hq]; [|done].
  injection Hr as ->. done.
Qed.
End UnknownIngredients.

Lemma calculateDishRisk_unknown_ingredients_witness :
  (calculateDishRisk (H := InMemory.supabase) Examples.tofu_wrap "user-1"
     (start (InMemory.seeded None) InMemory.menu)).1
  = Returned
      {| assessment_dish_id := "dish-4";
         risk_classification := risk_safe;
         risk_score := 20;
         risk_rationale :=
           "This dish appears safe based on your health profile.";
         contraindications := [];
         recommended_substitutions := [] |}
  /\ ingredient_queries
       [EvIngredient "Tofu" None (Returned None);
        EvIngredient "Seitan" None (Returned None)] = ["Tofu"; "Seitan"].
Proof.
  apply (calculateDishRisk_unknown_ingredients (H := InMemory.supabase)
           Examples.tofu_wrap "user-1" (InMemory.seeded None) InMemory.menu
           (Some {| species_type := "human" |})).
  - vm_compute. reflexivity.
  - reflexivity.
Defined.

(** ** RestaurantBrowser.tsx: the map of assessments *)

Lemma ingredient_calls_no_upsert calls :
  forallb ingredient_call calls = true -> existsb upsert_threw calls = false.
Proof.
  induction calls as [|e calls IH]; simpl; [done|].
  intros [He Hcalls]%andb_true_iff. rewrite (IH Hcalls).
  by destruct e as [? [?|] ?| | | |? ? ?| | | |].
Qed.

Section AssessmentMap.
Context {RS : Type} `{Supabase RS} {U : Type}.

Lemma calculateDishRisk_not_beneficial dish userId (w : World RS U) a w' :
  calculateDishRisk dish userId w = (Returned a, w') ->
  risk_classification a <> risk_beneficial.
Proof.
  unfold calculateDishRisk. unfold_monad. next_call; simpl.
  2: { by intros [= <- _]. }
  match goal with
  | |- context [ingredient_loop ?sp ?names ?v0 ?w0] =>
      pose proof (ingredient_loop_ok sp names v0 w0) as Hok;
      destruct (ingredient_loop sp names v0 w0) as [[v'|e] w'']
  end; simpl; intros [= <- _]; simpl; [|done].
  assert (locals_ok v') as Hv' by (apply Hok; repeat split; done).
  unfold locals_ok in Hv'. unfold dish_default.
  destruct (riskClassification v') eqn:Ec; try done;
    destruct (riskNotes v'); simpl; rewrite ?Ec; done.
Qed.

Lemma dish_loop_map userId dishList :
  forall (m : gmap string DishRiskAssessment) (w : World RS U),
  exists new,
    events (dish_loop userId dishList m w).2 = events w ++ new
    /\ match (dish_loop userId dishList m w).1 with
       | Returned m' =>
           existsb upsert_threw new = false
           /\ dom m' =@{gset string} dom m ∪ list_to_set (map dish_id dishList)
           /\ forall id a,
                m' !! id = Some a ->
                m !! id = Some a
                \/ (assessment_dish_id a = id
                    /\ risk_classification a <> risk_beneficial
                    /\ exists r, In (EvUpsertAssessment userId a r) new)
       | Thrown _ => existsb upsert_threw new = true
       end.
Proof.
  induction dishList as [|dish rest IH]; intros m w; simpl.
  { exists []. rewrite app_nil_r. repeat split; [|by left].
    simpl. by rewrite union_empty_r_L. }
  destruct (calculateDishRisk_calls dish userId w)
    as (a & w1 & profile & calls & Hcalc & Hid & Hev & Hcalls & _ & _).
  pose proof (calculateDishRisk_not_beneficial _ _ _ _ _ Hcalc) as Hclass.
  apply ingredient_calls_no_upsert in Hcalls.
  unfold_monad. rewrite Hcalc. next_call; simpl.
  1, 2: match goal with
        | |- context [dish_loop _ _ ?m0 ?w0] =>
            destruct (IH m0 w0) as (new & Hnew & Hres);
            destruct (dish_loop userId rest m0 w0) as [[m'|e] w']
        end; simpl in *;
        eexists (EvProfile userId profile
                   :: calls ++ EvUpsertAssessment userId a _ :: new);
        rewrite Hnew, Hev, <- !app_assoc; simpl;
        (split; [reflexivity|]);
        rewrite existsb_app, Hcalls; simpl.
  1, 3: destruct Hres as (Hthrew & Hdom & Hmap);
        (split; [done|]);
        (split; [rewrite Hdom, dom_insert_L; simpl;
                 by rewrite (comm_L (∪) {[dish_id dish]} (dom m)),
                      <- (assoc_L (∪))|]);
        intros id a' Ha'; destruct (Hmap id a' Ha') as [Hm|(? & ? & r & Hr)];
        [|right; repeat split; try done; exists r; right;
          apply in_or_app; right; by right];
        destruct (decide (dish_id dish = id)) as [<-|Hne];
        [rewrite lookup_insert_eq in Hm; injection Hm as <-;
         right; repeat split; try done; eexists; right;
         apply in_or_app; right; by left
        |rewrite lookup_insert_ne in Hm by done; by left].
  1, 2: done.
  eexists (EvProfile userId profile
             :: calls ++ [EvUpsertAssessment userId a (Thrown e)]).
  rewrite Hev, <- !app_assoc. simpl. split; [done|].
  rewrite existsb_app. simpl. apply orb_true_r.
Qed.
End AssessmentMap.

Section AssessmentRuns.
Context {RS : Type} `{Supabase RS}.

(** What a run of [assessDishRisks] does to the React state, from any
    world. *)
Lemma assessDishRisks_run dishList (w : World RS RestaurantBrowserState) :
  exists tr,
    events (assessDishRisks dishList w).2 = events w ++ tr
    /\ if abandoned tr
       then ui (assessDishRisks dishList w).2 = ui w
       else exists m,
              ui (assessDishRisks dishList w).2
              = setRiskAssessments m (ui w)
              /\ dom m =@{gset string} list_to_set (map dish_id dishList)
              /\ forall id a,
                   m !! id = Some a ->
                   assessment_dish_id a = id
                   /\ risk_classification a <> risk_beneficial
                   /\ exists profile r,
                        In (EvUpsertAssessment profile a r) tr.
Proof.
  unfold assessDishRisks. unfold_monad. next_call; simpl.
  - match goal with
    | |- context [dish_loop ?i ?l ?m0 ?w0] =>
        destruct (dish_loop_map i l m0 w0) as (new & Hnew & Hres);
        pose proof (oblivious_keeps_ui _ w0 (oblivious_dish_loop i l m0))
          as Hui;
        destruct (dish_loop i l m0 w0) as [[m'|e] w']
    end; simpl in *;
      exists (EvGetUser (Returned (Some user)) :: new);
      rewrite Hnew, <- app_assoc; (split; [done|]); simpl.
    + destruct Hres as (-> & Hdom & Hmap). exists m'. rewrite Hui.
      split; [done|]. split.
      { by rewrite Hdom, dom_empty_L, (left_id_L ∅ (∪)). }
      intros id a Ha. destruct (Hmap id a Ha) as [Hm|(? & ? & r & Hr)];
        [by rewrite lookup_empty in Hm|].
      repeat split; try done. exists (user_id user), r. by right.
    + by rewrite Hres.
  - by exists [EvGetUser (Returned None)].
  - by exists [EvGetUser (Thrown e)].
Qed.

(** X8. When [assessDishRisks] finds the user and no upsert throws, the map
    it stores holds exactly the ids of the dishes of the list, each with an
    assessment for that dish which the run has also sent to the remote; what
    an earlier run had stored is dropped, and the rest of the state is left
    as it was.  An error that an upsert reports without throwing does not
    stop the run. *)
Theorem assessDishRisks_completed dishList (s : RS) u :
  abandoned (events (assessDishRisks dishList (start s u)).2) = false ->
  dom (riskAssessments (ui (assessDishRisks dishList (start s u)).2))
  =@{gset string} list_to_set (map dish_id dishList)
  /\ (forall id a,
        riskAssessments (ui (assessDishRisks dishList (start s u)).2) !! id
        = Some a ->
        assessment_dish_id a = id
        /\ exists profile r,
             In (EvUpsertAssessment profile a r)
                (events (assessDishRisks dishList (start s u)).2))
  /\ dishes (ui (assessDishRisks dishList (start s u)).2) = dishes u
  /\ filterRisk (ui (assessDishRisks dishList (start s u)).2) = filterRisk u.
Proof.
  destruct (assessDishRisks_run dishList (start s u)) as (tr & Hev & Hrun).
  rewrite Hev. simpl. intros Hdone. rewrite Hdone in Hrun.
  destruct Hrun as (m & -> & Hdom & Hmap). simpl.
  repeat split; [done| |]; by destruct (Hmap id a) as (? & ? & ?).
Qed.

(** X9. When the user query of [assessDishRisks] throws or finds nobody, or
    an upsert throws, the React state is left as it was: the assessments
    computed in the run, also those already sent to the remote, are not
    stored. *)
Theorem assessDishRisks_abandoned dishList (s : RS) u :
  abandoned (events (assessDishRisks dishList (start s u)).2) = true ->
  ui (assessDishRisks dishList (start s u)).2 = u.
Proof.
  destruct (assessDishRisks_run dishList (start s u)) as (tr & Hev & Hrun).
  rewrite Hev. simpl. intros Hgone. by rewrite Hgone in Hrun.
Qed.
End AssessmentRuns.

Lemma assessDishRisks_completed_witness :
  dom (riskAssessments
         (ui (assessDishRisks (H := InMemory.supabase)
                [InMemory.almond_cake; InMemory.salmon_plate]
                (start (InMemory.seeded None) InMemory.menu)).2))
  =@{gset string} list_to_set ["dish-3"; "dish-2"].
Proof.
  apply (assessDishRisks_completed (H := InMemory.supabase)
           [InMemory.almond_cake; InMemory.salmon_plate]
           (InMemory.seeded None) InMemory.menu).
  vm_compute. reflexivity.
Defined.

Lemma assessDishRisks_abandoned_witness :
  ui (assessDishRisks (H := InMemory.supabase)
        [InMemory.almond_cake; InMemory.salmon_plate]
        (start (InMemory.seeded (Some 3%nat)) InMemory.menu)).2
  = InMemory.menu.
Proof.
  apply (assessDishRisks_abandoned (H := InMemory.supabase)).
  vm_compute. reflexivity.
Defined.

(** ** RestaurantBrowser.tsx: the filter tabs *)

Lemma filter_all_false {A} (f : A -> bool) (l : list A) :
  (forall x, f x = false) -> List.filter f l = [].
Proof.
  intros Hf. induction l as [|x l IH]; simpl; [done|]. by rewrite Hf.
Qed.

Lemma filter_sublist_weaken {A} (f g : A -> bool) (l : list A) :
  (forall x, f x = true -> g x = true) ->
  List.filter f l `sublist_of` List.filter g l.
Proof.
  intros Hfg. induction l as [|x l IH]; simpl; [done|].
  destruct (f x) eqn:Efx.
  - rewrite (Hfg x Efx). by apply sublist_skip.
  - destruct (g x); [by apply sublist_cons|done].
Qed.

Lemma filter_sublist {A} (f : A -> bool) (l : list A) :
  List.filter f l `sublist_of` l.
Proof.
  induction l as [|x l IH]; simpl; [done|].
  destruct (f x); [by apply sublist_skip|by apply sublist_cons].
Qed.

Lemma none_beneficial_filtered st :
  none_beneficial st ->
  filteredDishes (setFilterRisk filter_beneficial st) = [].
Proof.
  intros Hnone. unfold filteredDishes. simpl.
  apply filter_all_false. intros dish. unfold classified_as.
  destruct (riskAssessments st !! dish_id dish) as [a|] eqn:Ea; [|done].
  apply bool_decide_eq_false. by apply (Hnone _ _ Ea).
Qed.

(** X10. The three tabs narrow one another: what 'Recommended' lists is
    listed under 'Safe for Me', what 'Safe for Me' lists is listed under
    'All Dishes', and every tab lists dishes of the restaurant in the order
    they were loaded. *)
Theorem filteredDishes_tabs_nest st :
  filteredDishes (setFilterRisk filter_beneficial st)
    `sublist_of` filteredDishes (setFilterRisk filter_safe st)
  /\ filteredDishes (setFilterRisk filter_safe st)
       `sublist_of` filteredDishes (setFilterRisk filter_all st)
  /\ filteredDishes st `sublist_of` dishes st.
Proof.
  unfold filteredDishes. simpl. repeat split.
  - apply filter_sublist_weaken. intros dish ->. apply orb_true_r.
  - apply filter_sublist_weaken. intros dish. unfold classified_as.
    destruct (riskAssessments st !! dish_id dish) as [a|]; [|done].
    intros [Hc|Hc]%orb_true_iff; apply bool_decide_eq_true in Hc;
      rewrite Hc; done.
  - apply filter_sublist.
Qed.

Section LoadDishes.
Context {RS : Type} `{Supabase RS}.

(** What a run of [loadDishes] does, from the start. *)
Lemma loadDishes_run restaurantId (s : RS) u :
  exists r rest,
    events (loadDishes restaurantId (start s u)).2
    = EvDishes restaurantId r :: rest
    /\ match r with
       | Returned (data, None) =>
           dishes (ui (loadDishes restaurantId (start s u)).2)
           = default [] data
           /\ filterRisk (ui (loadDishes restaurantId (start s u)).2)
              = filterRisk u
           /\ if abandoned rest
              then riskAssessments (ui (loadDishes restaurantId (start s u)).2)
                   = riskAssessments u
              else dom (riskAssessments
                          (ui (loadDishes restaurantId (start s u)).2))
                   =@{gset string} list_to_set (map dish_id (default [] data))
                   /\ forall id a,
                        riskAssessments
                          (ui (loadDishes restaurantId (start s u)).2) !! id
                        = Some a ->
                        risk_classification a <> risk_beneficial
       | Returned (_, Some e) | Thrown e =>
           rest = []
           /\ ui (loadDishes restaurantId (start s u)).2 = u
           /\ console (loadDishes restaurantId (start s u)).2
              = [("Error loading dishes:", e)]
       end.
Proof.
  unfold loadDishes. unfold_monad. simpl. next_call; simpl.
  - by exists (Returned (data, Some err)), [].
  - match goal with
    | |- context [assessDishRisks ?l ?w0] =>
        destruct (assessDishRisks_run l w0) as (tr & Hev & Hrun);
        destruct (assessDishRisks l w0) as [[[]|e] w']
    end; simpl in *; exists (Returned (data, None)), tr;
      (split; [done|]);
      (destruct (abandoned tr);
         [rewrite Hrun; done
         |destruct Hrun as (m & -> & Hdom & Hmap); simpl; repeat split;
          try done; intros id a Ha; by destruct (Hmap id a Ha) as (? & ? & ?)]).
  - by exists (Thrown e), [].
Qed.

(** X11. [loadDishes] stores the dishes the query returned, or none when it
    returned no data, whatever becomes of their assessment, and leaves the
    chosen filter alone; when the query reports an error or throws, it logs
    the error once, makes no other call and leaves the whole state as it
    was. *)
Theorem loadDishes_outcomes restaurantId (s : RS) u :
  exists r rest,
    events (loadDishes restaurantId (start s u)).2
    = EvDishes restaurantId r :: rest
    /\ match r with
       | Returned (data, None) =>
           dishes (ui (loadDishes restaurantId (start s u)).2)
           = default [] data
           /\ filterRisk (ui (loadDishes restaurantId (start s u)).2)
              = filterRisk u
       | Returned (_, Some e) | Thrown e =>
           rest = []
           /\ ui (loadDishes restaurantId (start s u)).2 = u
           /\ console (loadDishes restaurantId (start s u)).2
              = [("Error loading dishes:", e)]
       end.
Proof.
  destruct (loadDishes_run restaurantId s u) as (r & rest & Hev & Hrun).
  exists r, rest. split; [done|].
  destruct r as [[data [e|]]|e]; try done. by destruct Hrun as (? & ? & _).
Qed.

(** X12. The 'Recommended' tab stays empty: from a state that stores no
    'beneficial' assessment, the empty map the component starts with among
    them, neither [loadDishes] nor [assessDishRisks] ever leaves a dish that
    the 'beneficial' filter lists. *)
Theorem recommended_tab_is_empty :
  (forall restaurantId (s : RS) u,
     none_beneficial u ->
     filteredDishes
       (setFilterRisk filter_beneficial
          (ui (loadDishes restaurantId (start s u)).2)) = [])
  /\ (forall dishList (s : RS) u,
        none_beneficial u ->
        filteredDishes
          (setFilterRisk filter_beneficial
             (ui (assessDishRisks dishList (start s u)).2)) = []).
Proof.
  split.
  - intros restaurantId s u Hu. apply none_beneficial_filtered.
    destruct (loadDishes_run restaurantId s u) as (r & rest & _ & Hrun).
    destruct r as [[data [e|]]|e].
    + destruct Hrun as (_ & -> & _). done.
    + destruct Hrun as (_ & _ & Hmap). destruct (abandoned rest).
      * intros id a. rewrite Hmap. apply Hu.
      * exact (proj2 Hmap).
    + destruct Hrun as (_ & -> & _). done.
  - intros dishList s u Hu. apply none_beneficial_filtered.
    destruct (assessDishRisks_run dishList (start s u)) as (tr & _ & Hrun).
    destruct (abandoned tr).
    + rewrite Hrun. done.
    + destruct Hrun as (m & -> & _ & Hmap). intros id a Ha.
      by destruct (Hmap id a Ha) as (? & ? & ?).
Qed.
End LoadDishes.

Lemma recommended_tab_is_empty_witness :
  filteredDishes
    (setFilterRisk filter_beneficial
       (ui (assessDishRisks (H := InMemory.supabase)
              [InMemory.almond_cake; InMemory.salmon_plate]
              (start (InMemory.seeded None) InMemory.menu)).2)) = [].
Proof.
  apply (proj2 (recommended_tab_is_empty (H := InMemory.supabase))).
  intros id a Ha. vm_compute in Ha. discriminate Ha.
Defined.

(** ** The restaurant list *)

Lemma truthy_nonempty c : truthy c = true <-> c <> "".
Proof. by destruct c. Qed.

Lemma elem_of_truthy_cuisines c l :
  c ∈ truthy_cuisines l <-> Some c ∈ l /\ c <> "".
Proof.
  unfold truthy_cuisines. rewrite list_elem_of_omap. split.
  - intros ([c'|] & Hin & Hc); [|done].
    destruct (truthy c') eqn:Ec; [|done]. injection Hc as ->.
    by apply truthy_nonempty in Ec.
  - intros [Hin Hc]. exists (Some c). split; [done|].
    apply truthy_nonempty in Hc. by rewrite Hc.
Qed.

Lemma first_occurrences_spec l : forall seen,
  NoDup (first_occurrences seen l)
  /\ forall x, x ∈ first_occurrences seen l <-> x ∈ l /\ x ∉ seen.
Proof.
  induction l as [|y l IH]; intros seen; simpl.
  { split; [constructor|]. intros x. split; [by intros ?%elem_of_nil|].
    by intros [?%elem_of_nil _]. }
  case_bool_decide as Hy.
  - destruct (IH seen) as [Hnodup Hin]. split; [done|].
    intros x. rewrite Hin, elem_of_cons. split; [by intros [? ?]; auto|].
    intros [[->|Hx] Hseen]; done.
  - destruct (IH (y :: seen)) as [Hnodup Hin]. split.
    + constructor; [|done]. rewrite Hin, elem_of_cons. intros [_ Hno].
      apply Hno. by left.
    + intros x. rewrite !elem_of_cons, Hin, elem_of_cons. split.
      * intros [->|[Hx Hno]]; [by auto|]. split; [by right|]. auto.
      * intros [[->|Hx] Hseen]; [by left|].
        destruct (decide (x = y)) as [->|Hne]; [by left|].
        right. split; [done|]. by intros [?|?].
Qed.

Lemma elem_of_cuisineTypes (restaurants : list Restaurant) c :
  c ∈ cuisineTypes restaurants
  <-> c <> "" /\ exists r, r ∈ restaurants /\ cuisine_type r = Some c.
Proof.
  unfold cuisineTypes.
  destruct (first_occurrences_spec
              (truthy_cuisines (map cuisine_type restaurants)) [])
    as [_ Hin].
  rewrite Hin, elem_of_truthy_cuisines, list_elem_of_fmap. split.
  - intros [[(r & Hr & Hin') Hc] _]. split; [done|]. by exists r.
  - intros [Hc (r & Hr & Hcr)]. split; [|by intros ?%elem_of_nil].
    split; [|done]. by exists r.
Qed.

(** X13. The cuisine buttons: [cuisineTypes] lists each cuisine once, and
    lists exactly the cuisine types of the loaded restaurants that are
    neither null nor empty. *)
Theorem cuisineTypes_distinct (restaurants : list Restaurant) :
  NoDup (cuisineTypes restaurants)
  /\ forall c,
       c ∈ cuisineTypes restaurants
       <-> c <> "" /\ exists r, r ∈ restaurants /\ cuisine_type r = Some c.
Proof.
  split; [|apply elem_of_cuisineTypes].
  apply (first_occurrences_spec
           (truthy_cuisines (map cuisine_type restaurants)) []).
Qed.

(** X14. The cuisine filter: 'all' lists every loaded restaurant; every
    cuisine that has a button lists at least one restaurant; a filter other
    than 'all' lists exactly the restaurants of that cuisine, so a
    restaurant without a cuisine type is listed under 'all' only. *)
Theorem shownRestaurants_by_cuisine (restaurants : list Restaurant) :
  shownRestaurants "all" restaurants = restaurants
  /\ (forall c, c ∈ cuisineTypes restaurants ->
               shownRestaurants c restaurants <> [])
  /\ (forall c r,
        c <> "all" ->
        In r (shownRestaurants c restaurants)
        <-> In r restaurants /\ cuisine_type r = Some c).
Proof.
  unfold shownRestaurants. split; [|split].
  - simpl. induction restaurants as [|r l IH]; simpl; [done|].
    by rewrite IH.
  - intros c (_ & r & Hr & Hc)%elem_of_cuisineTypes Hnone.
    apply list_elem_of_In in Hr.
    assert (In r (List.filter
                    (fun r => String.eqb c "all"
                              || bool_decide (cuisine_type r = Some c))
                    restaurants)) as Hin.
    { apply filter_In. split; [done|]. rewrite bool_decide_eq_true_2 by done.
      apply orb_true_r. }
    by rewrite Hnone in Hin.
  - intros c r Hne. rewrite filter_In. split.
    + intros [Hin Hkeep]. split; [done|].
      apply orb_true_iff in Hkeep as [Hall%String.eqb_eq|Hc]; [done|].
      by apply bool_decide_eq_true in Hc.
    + intros [Hin Hc]. split; [done|].
      rewrite bool_decide_eq_true_2 by done. apply orb_true_r.
Qed.

Lemma cuisineTypes_distinct_witness :
  "Thai" ∈ cuisineTypes [Examples.thai; Examples.canteen; Examples.thai_too].
Proof.
  apply (proj2 (cuisineTypes_distinct
                  [Examples.thai; Examples.canteen; Examples.thai_too])).
  split; [done|]. exists Examples.thai. split; [by left|done].
Defined.

Lemma shownRestaurants_by_cuisine_witness :
  shownRestaurants "Thai" [Examples.thai; Examples.canteen; Examples.thai_too]
  <> []
  /\ In Examples.thai_too
       (shownRestaurants "Thai"
          [Examples.thai; Examples.canteen; Examples.thai_too]).
Proof.
  pose proof (shownRestaurants_by_cuisine
                [Examples.thai; Examples.canteen; Examples.thai_too])
    as (_ & Hbutton & Hfilter).
  split.
  - apply Hbutton. vm_compute. left.
  - apply Hfilter; [discriminate|]. split; [|reflexivity].
    right. right. left. reflexivity.
Defined.

(** Destructs the next call on the other tables that the goal is stuck
    on. *)
Ltac next_catalog_call :=
  match goal with
  | |- context [@restaurants_by_rating _ _ ?rs] =>
      destruct (@restaurants_by_rating _ _ rs)
        as [[[?data [?err|]]|?e] ?s] eqn:?
  | |- context [@user_recipes_select _ _ ?rs] =>
      destruct (@user_recipes_select _ _ rs)
        as [[[?data [?err|]]|?e] ?s] eqn:?
  | |- context [@user_recipes_update _ _ ?r ?p ?f ?rs] =>
      destruct (@user_recipes_update _ _ r p f rs)
        as [[[?err|]|?e] ?s] eqn:?
  | |- context [@user_recipes_insert _ _ ?p ?r ?f ?rs] =>
      destruct (@user_recipes_insert _ _ p r f rs)
        as [[[?err|]|?e] ?s] eqn:?
  end.

Ltac unfold_catalog :=
  unfold await_call, set_react, fresh in *; unfold_monad.

Section Restaurants.
Context {RS : Type} `{SupabaseCatalog RS}.

(** X15. [loadRestaurants] makes one call and always returns with the
    loading flag cleared.  It stores the restaurants the query returned, or
    none when it returned no data; when the query reports an error or
    throws, it logs the error once and leaves the list as it was. *)
Theorem loadRestaurants_outcomes (s : RS) st :
  exists r,
    returns loadRestaurants (start s (fresh st))
    /\ calls (ui (loadRestaurants (start s (fresh st))).2)
       = [CallRestaurants r]
    /\ restaurants_loading
         (react (ui (loadRestaurants (start s (fresh st))).2)) = false
    /\ match r with
       | Returned (data, None) =>
           restaurants (react (ui (loadRestaurants (start s (fresh st))).2))
           = default [] data
           /\ console (loadRestaurants (start s (fresh st))).2 = []
       | Returned (_, Some e) | Thrown e =>
           restaurants (react (ui (loadRestaurants (start s (fresh st))).2))
           = restaurants st
           /\ console (loadRestaurants (start s (fresh st))).2
              = [("Error loading restaurants:", e)]
       end.
Proof.
  unfold loadRestaurants, returns. unfold_catalog. simpl.
  next_catalog_call; simpl; eexists; (split; [by eexists _, _|]);
    by repeat split.
Qed.
End Restaurants.

(** ** The recipe favourites *)

Section Favourites.
Context {RS : Type} `{Supabase RS} `{SupabaseCatalog RS}.

(** X16. A click on the heart of a recipe makes at most one write, and the
    write asks for the opposite of what the heart shows: an update of the
    row to the negated flag when the list of the render has a row for the
    recipe, an insert with [true] otherwise, under the id of the signed-in
    user.  The handler itself leaves the React state alone, and it goes on
    to reload the list exactly when the write returned without an error. *)
Theorem toggleFavorite_asks_opposite userRecipes recipeId (s : RS) st :
  react (ui (toggleFavorite userRecipes recipeId (start s (fresh st))).2) = st
  /\ match calls (ui (toggleFavorite userRecipes recipeId
                        (start s (fresh st))).2) with
     | [] =>
         (toggleFavorite userRecipes recipeId (start s (fresh st))).1
         = Returned false
     | [CallUpdateFavorite recipe profile favorite r] =>
         recipe = recipeId
         /\ favorite = negb (isFavorite userRecipes recipeId)
         /\ is_Some (find_user_recipe userRecipes recipeId)
         /\ In (EvGetUser (Returned (Some {| user_id := profile |})))
              (events (toggleFavorite userRecipes recipeId
                         (start s (fresh st))).2)
         /\ (toggleFavorite userRecipes recipeId (start s (fresh st))).1
            = Returned (accepted r)
     | [CallInsertFavorite profile recipe favorite r] =>
         recipe = recipeId
         /\ favorite = negb (isFavorite userRecipes recipeId)
         /\ favorite = true
         /\ find_user_recipe userRecipes recipeId = None
         /\ In (EvGetUser (Returned (Some {| user_id := profile |})))
              (events (toggleFavorite userRecipes recipeId
                         (start s (fresh st))).2)
         /\ (toggleFavorite userRecipes recipeId (start s (fresh st))).1
            = Returned (accepted r)
     | _ => False
     end.
Proof.
  unfold toggleFavorite, isFavorite. unfold_catalog. simpl.
  next_call; simpl; [|done|done].
  destruct user as [uid].
  destruct (find_user_recipe userRecipes recipeId) as [ur|] eqn:Efind; simpl;
    next_catalog_call; simpl; repeat split; eauto.
Qed.

(** X17. After a click on the heart and the reload that follows it, the
    list of favourites is the one the reload read, or empty when the reload
    returned no data, exactly when the reload read the table without an
    error; the reload is made only after a write that returned without an
    error, and in every other case the list stays as it was. *)
Theorem onToggleFavorite_reload recipeId (s : RS) st :
  returns (onToggleFavorite recipeId) (start s (fresh st))
  /\ react (ui (onToggleFavorite recipeId (start s (fresh st))).2)
     = match last (calls (ui (onToggleFavorite recipeId
                                (start s (fresh st))).2)) with
       | Some (CallUserRecipes (Returned (data, None))) =>
           setUserRecipes (default [] data) st
       | _ => st
       end
  /\ (forall r,
        In (CallUserRecipes r)
           (calls (ui (onToggleFavorite recipeId (start s (fresh st))).2)) ->
        exists w, head (calls (ui (onToggleFavorite recipeId
                                     (start s (fresh st))).2)) = Some w
                  /\ match w with
                     | CallUpdateFavorite _ _ _ (Returned None)
                     | CallInsertFavorite _ _ _ (Returned None) => True
                     | _ => False
                     end).
Proof.
  unfold onToggleFavorite, toggleFavorite, loadUserRecipes, returns.
  unfold_catalog. simpl.
  next_call; simpl.
  2, 3: split; [by eexists _, _|]; split; [done|]; by intros ? [].
  destruct (find_user_recipe (userRecipes st) recipeId) as [ur|]; simpl;
    next_catalog_call; simpl;
    try (split; [by eexists _, _|]; split; [done|];
         intros ? Hin; repeat (destruct Hin as [Hin|Hin]; [done|]); done);
    next_call; simpl;
    try (split; [by eexists _, _|]; split; [done|];
         intros ? Hin; repeat (destruct Hin as [Hin|Hin]; [done|]); done);
    next_catalog_call; simpl;
    (split; [by eexists _, _|]); (split; [done|]);
    intros ? Hin; eexists; (split; [reflexivity|done]).
Qed.
End Favourites.

Lemma onToggleFavorite_reload_witness :
  exists w,
    head (calls (ui (onToggleFavorite (H := InMemory.supabase)
                       (H0 := Examples.catalog) "recipe-1"
                       (start (InMemory.seeded None)
                          (fresh {| userRecipes := Examples.favourites |}))).2))
    = Some w
    /\ match w with
       | CallUpdateFavorite _ _ _ (Returned None)
       | CallInsertFavorite _ _ _ (Returned None) => True
       | _ => False
       end.
Proof.
  apply (proj2 (proj2 (onToggleFavorite_reload (H := InMemory.supabase)
                         (H0 := Examples.catalog) "recipe-1"
                         (InMemory.seeded None)
                         {| userRecipes := Examples.favourites |}))
           (Returned (Some Examples.favourites, None))).
  vm_compute. right. left. reflexivity.
Defined.
